(** * TranslationChild: the per-frame translation controller

    A shallow embedding of [TranslationChild] (the content-script class that
    drives language detection, translation and the statistics report of one
    frame) together with the properties of its status broadcasts, its
    detection gate, its translation step and its word counts.

    The class is asynchronous, single-threaded JavaScript.  Each [async]
    method is embedded as the synchronous segments between its [await]s: a
    [_begin] function that runs up to the first suspension point and a
    [_resume] function that runs from the settled promise to the end.  The
    world in which a method resumes is not the world in which it suspended:
    other code of the page may have run in between.

    Calls into collaborators whose code lives outside this class (the
    extension state store, the language detector, the batching translator,
    the translation document) are recorded in a trace, in call order. *)

From Stdlib Require Import String Ascii List NArith ZArith QArith Lia Bool.
From stdpp Require Import base list.

Import ListNotations.
Local Open Scope string_scope.
Local Open Scope list_scope.

(** ** JavaScript string primitives

    A JavaScript string is a sequence of code units; [string] stands for it
    with one [ascii] per code unit, so [String.length] is [.length]. *)

Module JS.

(** [Array.prototype.join(sep)]. *)
Fixpoint join (sep : string) (l : list string) : string :=
  match l with
  | [] => ""
  | [x] => x
  | x :: rest => x ++ sep ++ join sep rest
  end.

(** [String.prototype.substr(start, len)] for non-negative arguments. *)
Definition substr (s : string) (start len : N) : string :=
  substring (N.to_nat start) (N.to_nat len) s.

(** [String.prototype.startsWith(p)]. *)
Definition startsWith (s p : string) : bool := String.prefix p s.

(** [.length], as a number. *)
Definition length (s : string) : N := N.of_nat (String.length s).

(** [String.prototype.split(sep)] for a separator of one code unit: the
    fields between the separators, the empty string giving one empty
    field. *)
Fixpoint split (sep : ascii) (s : string) : list string :=
  match s with
  | EmptyString => [""]
  | String c s' =>
      if Ascii.eqb c sep then "" :: split sep s'
      else match split sep s' with
           | f :: fs => String c f :: fs
           | [] => [String c ""]
           end
  end.

(** [s.replace(/<[^>]*>?/gm, " ")]: every match starts at a "<", runs
    over all following code units other than ">" (line breaks included)
    and takes one ">" when there is one; each match becomes one space.
    [in_tag] tells whether the scan is inside a match. *)
Fixpoint replace_tags (in_tag : bool) (s : string) : string :=
  match s with
  | EmptyString => ""
  | String c s' =>
      if in_tag then
        if Ascii.eqb c ">" then replace_tags false s'
        else replace_tags true s'
      else if Ascii.eqb c "<" then String " " (replace_tags true s')
      else String c (replace_tags false s')
  end.

(** White space as [trim] sees it, among the code units below 256: TAB,
    LF, VT, FF, CR, SPACE and NBSP. *)
Definition is_white_space (c : ascii) : bool :=
  let n := N_of_ascii c in
  ((9 <=? n) && (n <=? 13) || (n =? 32) || (n =? 160))%N.

Fixpoint trimStart (s : string) : string :=
  match s with
  | EmptyString => ""
  | String c s' => if is_white_space c then trimStart s' else s
  end.

Fixpoint trimEnd (s : string) : string :=
  match s with
  | EmptyString => ""
  | String c s' =>
      match trimEnd s' with
      | EmptyString => if is_white_space c then "" else String c ""
      | t => String c t
      end
  end.

(** [String.prototype.trim()]. *)
Definition trim (s : string) : string := trimEnd (trimStart s).

(** Truthiness of a value that is a string, [null] or [undefined]. *)
Definition truthy (v : option string) : bool :=
  match v with
  | Some (String _ _) => true
  | _ => false
  end.

(** Number of code units of [s] equal to [c]. *)
Fixpoint count (c : ascii) (s : string) : nat :=
  match s with
  | EmptyString => 0
  | String d s' => (if Ascii.eqb d c then 1 else 0) + count c s'
  end.

End JS.

(** ** The data the controller handles *)

(** [TranslationStatus], the status enumeration of [BaseTranslationState]. *)
Inductive TranslationStatus : Set :=
| UNAVAILABLE
| DETECTING_LANGUAGE
| LANGUAGE_NOT_DETECTED
| OFFER
| TRANSLATING
| TRANSLATED
| ERROR.

(** [FrameInfo]: the key of all per-frame state; opaque to the controller. *)
Record FrameInfo : Set := mkFrameInfo { tabId : Z; frameId : Z }.

(** [DetectedLanguageResults]: what the language detector answers. *)
Record DetectedLanguageResults : Set := mkDetected {
  language : string;
  confident : bool
}.

(** A value carried by a state patch. *)
Inductive PatchValue : Set :=
| StatusValue (s : TranslationStatus)
| DetectionValue (r : DetectedLanguageResults).

Inductive PatchOp : Set := op_replace | op_add.

(** One operation of the JSON-patch-like argument of
    [patchDocumentTranslationStateByFrameInfo]. *)
Record Operation : Set := mkOperation {
  op : PatchOp;
  path : list string;
  value : PatchValue
}.

(** A DOM node is known by its identity only. *)
Definition Node := nat.

(** A root of a translation document: the node it stands for and the value
    [translationDocument.generateTextForItem(root)] gives for it (a string,
    or [None] for [null] and [undefined]). *)
Record TranslationItem : Set := mkItem {
  nodeRef : Node;
  generatedText : option string
}.

(** The fields of a [TranslationDocument] the controller reads and writes;
    a language is [None] while it is unset. *)
Record TranslationDocument : Set := mkTranslationDocument {
  roots : list TranslationItem;
  translatedFrom : option string;
  translatedTo : option string;
  translationError : bool
}.

Definition set_translatedFrom (v : string) (d : TranslationDocument) :=
  mkTranslationDocument (roots d) (Some v) (translatedTo d) (translationError d).

Definition set_translatedTo (v : string) (d : TranslationDocument) :=
  mkTranslationDocument (roots d) (translatedFrom d) (Some v) (translationError d).

Definition set_translationError (v : bool) (d : TranslationDocument) :=
  mkTranslationDocument (roots d) (translatedFrom d) (translatedTo d) v.

(** Objects are shared by reference: a translation document lives in a heap
    and is named by its address. *)
Abbreviation Ref := nat (only parsing).

(** The content window, with its expando property [translationDocument]. *)
Record ContentWindow : Set := mkContentWindow {
  translationDocument : option Ref
}.

(** An element, as far as the detection sample needs it. *)
Record Element : Set := mkElement { textContent : string }.

(** A translation node of [getTranslationNodes]. *)
Record TranslationNode : Set := mkTranslationNode { content : Element }.

(** What can be thrown or be the reason of a rejected promise. *)
Inductive Exn : Set :=
| TypeError
| Failure (reason : string).

(** The page's document as the controller sees it: [String(location)], the
    [translationNodes] of [getTranslationNodes(document.body)], the object
    [new TranslationDocument(document)] builds, and what
    [showTranslation()] does when it swaps the page's content: it returns
    ([None]) or throws. *)
Record Document : Set := mkDocument {
  location : string;
  translationNodes : list TranslationNode;
  extracted : TranslationDocument;
  showTranslationThrows : option Exn
}.

(** An awaited promise, once settled. *)
Inductive Settled (A : Type) : Type :=
| Resolved (a : A)
| Rejected (e : Exn).
Arguments Resolved {A} a.
Arguments Rejected {A} e.

(** A callback handed to [setTimeout(..., 0)]. *)
Inductive Task : Set :=
| PatchTask (ops : list Operation)
| DeleteTask.

(** A call into a collaborator. *)
Inductive Event : Set :=
| PatchState (fi : FrameInfo) (ops : list Operation)
| DeleteState (fi : FrameInfo)
| DetectLanguage (sample : string)
| NewTranslationDocument (r : Ref)
| NewBergamotTranslator (r : Ref) (aFrom aTo : string)
| Translate (r : Ref)
| ShowTranslation (r : Ref)
| Observe (elements : list Node).

(** The controller's fields and everything around it that its methods
    touch.  [contentWindow] is [None] when the reference is falsy. *)
Record World : Set := mkWorld {
  frameInfo : FrameInfo;
  document : Document;
  contentWindow : option ContentWindow;
  heap : list TranslationDocument;
  timers : list Task;
  trace : list Event
}.

Definition with_contentWindow (cw : option ContentWindow) (w : World) : World :=
  mkWorld (frameInfo w) (document w) cw (heap w) (timers w) (trace w).

Definition with_heap (h : list TranslationDocument) (w : World) : World :=
  mkWorld (frameInfo w) (document w) (contentWindow w) h (timers w) (trace w).

Definition with_timers (ts : list Task) (w : World) : World :=
  mkWorld (frameInfo w) (document w) (contentWindow w) (heap w) ts (trace w).

Definition with_trace (tr : list Event) (w : World) : World :=
  mkWorld (frameInfo w) (document w) (contentWindow w) (heap w) (timers w) tr.

(** ** Computations: state, exceptions and a trace *)

Inductive Completion (A : Type) : Type :=
| Normal (a : A)
| Throw (e : Exn).
Arguments Normal {A} a.
Arguments Throw {A} e.

Definition M (A : Type) : Type := World -> Completion A * World.

Definition ret {A} (a : A) : M A := fun w => (Normal a, w).

Definition bind {A B} (m : M A) (k : A -> M B) : M B :=
  fun w =>
    match m w with
    | (Normal a, w') => k a w'
    | (Throw e, w') => (Throw e, w')
    end.

Definition throw {A} (e : Exn) : M A := fun w => (Throw e, w).

(** [try { body } catch (ex) { handler(ex) }]. *)
Definition try_catch {A} (body : M A) (handler : Exn -> M A) : M A :=
  fun w =>
    match body w with
    | (Normal a, w') => (Normal a, w')
    | (Throw e, w') => handler e w'
    end.

Declare Scope js_scope.
Delimit Scope js_scope with js.
Notation "x <- m ;; k" := (bind m (fun x => k))
  (at level 100, m at next level, k at level 200, right associativity) : js_scope.
Notation "m ;; k" := (bind m (fun _ => k))
  (at level 100, k at level 200, right associativity) : js_scope.
Local Open Scope js_scope.

Definition gets {A} (f : World -> A) : M A := fun w => (Normal (f w), w).
Definition modify (f : World -> World) : M unit := fun w => (Normal tt, f w).

(** A call into a collaborator is appended to the trace. *)
Definition call (e : Event) : M unit :=
  modify (fun w => with_trace (trace w ++ [e]) w).

(** [setTimeout(task, 0)]: the task joins the queue of pending timers. *)
Definition setTimeout (t : Task) : M unit :=
  modify (fun w => with_timers (timers w ++ [t]) w).

(** ** The event loop *)

(** A timer callback fires: it reads [this.frameInfo] and calls the
    extension state. *)
Definition fire (w : World) (t : Task) : Event :=
  match t with
  | PatchTask ops => PatchState (frameInfo w) ops
  | DeleteTask => DeleteState (frameInfo w)
  end.

(** One turn of the event loop: the oldest pending timer fires, as a task
    of its own. *)
Definition tick (w : World) : World :=
  match timers w with
  | [] => w
  | t :: rest => with_timers rest (with_trace (trace w ++ [fire w t]) w)
  end.

Fixpoint ticks (n : nat) (w : World) : World :=
  match n with
  | O => w
  | S n' => ticks n' (tick w)
  end.

(** All pending timers fire, in the order in which they were set. *)
Definition runTimers (w : World) : World :=
  ticks (List.length (timers w)) w.

(** ** TranslationChild *)

Definition statusPatch (translationStatus : TranslationStatus) : list Operation :=
  [ mkOperation op_replace ["translationStatus"] (StatusValue translationStatus) ].

Definition broadcastUpdatedTranslationStatus
    (translationStatus : TranslationStatus) : M unit :=
  setTimeout (PatchTask (statusPatch translationStatus)).

(** *** attemptToDetectLanguage *)

Definition LF : string := String (ascii_of_nat 10) "".

Definition domElementsToStringWithMaxLength
    (elements : list Element) (maxLength : N) : string :=
  JS.substr (JS.join LF (map textContent elements)) 0 maxLength.

(** Where [attemptToDetectLanguage] stands when its first segment ends: it
    has returned, or it awaits the detector's answer. *)
Inductive DetectionStep : Set :=
| DetectionReturned
| DetectionAwaits.

Definition attemptToDetectLanguage_begin : M DetectionStep :=
  url <- gets (fun w => location (document w)) ;;
  if negb (JS.startsWith url "http://") && negb (JS.startsWith url "https://")
  then
    broadcastUpdatedTranslationStatus UNAVAILABLE ;;
    ret DetectionReturned
  else
    broadcastUpdatedTranslationStatus DETECTING_LANGUAGE ;;
    nodeList <- gets (fun w => translationNodes (document w)) ;;
    let string :=
      domElementsToStringWithMaxLength (map content nodeList) (60 * 1024) in
    if (JS.length string <? 100)%N then
      broadcastUpdatedTranslationStatus LANGUAGE_NOT_DETECTED ;;
      ret DetectionReturned
    else
      call (DetectLanguage string) ;;
      ret DetectionAwaits.

Definition detectionPatch (result : DetectedLanguageResults) : list Operation :=
  [ mkOperation op_add ["detectedLanguageResults"] (DetectionValue result) ].

Definition attemptToDetectLanguage_resume
    (settled : Settled DetectedLanguageResults) : M unit :=
  match settled with
  | Rejected e => throw e
  | Resolved result =>
      win <- gets contentWindow ;;
      match win with
      | None => setTimeout DeleteTask
      | Some _ =>
          setTimeout (PatchTask (detectionPatch result)) ;;
          if negb (confident result) then
            broadcastUpdatedTranslationStatus LANGUAGE_NOT_DETECTED
          else
            broadcastUpdatedTranslationStatus OFFER
      end
  end.

(** The whole method: [between] is what the rest of the page does to the
    world while the detector is at work. *)
Definition attemptToDetectLanguage
    (between : World -> World)
    (settled : Settled DetectedLanguageResults) : M unit :=
  step <- attemptToDetectLanguage_begin ;;
  match step with
  | DetectionReturned => ret tt
  | DetectionAwaits => modify between ;; attemptToDetectLanguage_resume settled
  end.

(** *** doTranslation *)

(** [new TranslationDocument(this.document)]: a new object in the heap. *)
Definition newTranslationDocument : M Ref :=
  r <- gets (fun w => List.length (heap w)) ;;
  modify (fun w => with_heap (heap w ++ [extracted (document w)]) w) ;;
  call (NewTranslationDocument r) ;;
  ret r.

(** [this.contentWindow.translationDocument || new TranslationDocument(this.document)];
    reading a property of a falsy [contentWindow] throws. *)
Definition translationDocumentOrNew : M Ref :=
  win <- gets contentWindow ;;
  match win with
  | None => throw TypeError
  | Some cw =>
      match translationDocument cw with
      | Some r => ret r
      | None => newTranslationDocument
      end
  end.

(** [this.contentWindow.translationDocument = r]. *)
Definition storeTranslationDocument (r : Ref) : M unit :=
  win <- gets contentWindow ;;
  match win with
  | None => throw TypeError
  | Some _ => modify (with_contentWindow (Some (mkContentWindow (Some r))))
  end.

(** An assignment to a field of the object at [r]. *)
Definition assign (r : Ref) (f : TranslationDocument -> TranslationDocument) : M unit :=
  modify (fun w => with_heap (alter f r (heap w)) w).

(** Up to [await translator.translate()]: the result is the document the
    rest of the method holds on to.  The [try] block opens just before the
    call of [translate()]; the call returns a promise, and its failure is
    the rejection of that promise, handled in [doTranslation_resume]. *)
Definition doTranslation_begin (aFrom aTo : string) : M Ref :=
  translationDocument <- translationDocumentOrNew ;;
  broadcastUpdatedTranslationStatus TRANSLATING ;;
  call (NewBergamotTranslator translationDocument aFrom aTo) ;;
  storeTranslationDocument translationDocument ;;
  assign translationDocument (set_translatedFrom aFrom) ;;
  assign translationDocument (set_translatedTo aTo) ;;
  assign translationDocument (set_translationError false) ;;
  call (Translate translationDocument) ;;
  ret translationDocument.

(** [translationDocument.showTranslation()]: a call into the translation
    document, which returns or throws as the page has it. *)
Definition showTranslation (translationDocument : Ref) : M unit :=
  call (ShowTranslation translationDocument) ;;
  thrown <- gets (fun w => showTranslationThrows (document w)) ;;
  match thrown with
  | Some e => throw e
  | None => ret tt
  end.

(** From the settled [translate()] promise to the end: the rest of the
    [try] block and its [catch], which covers [showTranslation()] as well
    as the awaited promise. *)
Definition doTranslation_resume
    (translationDocument : Ref) (settled : Settled unit) : M unit :=
  try_catch
    ((match settled with
      | Resolved _ => ret tt
      | Rejected e => throw e
      end) ;;
     showTranslation translationDocument ;;
     broadcastUpdatedTranslationStatus TRANSLATED)
    (fun ex =>
       assign translationDocument (set_translationError true) ;;
       broadcastUpdatedTranslationStatus ERROR).

Definition doTranslation
    (aFrom aTo : string)
    (between : World -> World)
    (settled : Settled unit) : M unit :=
  translationDocument <- doTranslation_begin aFrom aTo ;;
  modify between ;;
  doTranslation_resume translationDocument settled.

(** *** getDocumentTranslationStatistics *)

(** [DOMRect]; finite floating-point coordinates are rationals and compare
    as such. *)
Record DOMRect : Set := mkDOMRect {
  top : Q;
  left : Q;
  bottom : Q;
  right : Q
}.

(** What the layout engine answers when asked. *)
Record Layout : Type := mkLayout {
  getBoundingClientRect : Node -> DOMRect;
  innerHeight : Q;
  innerWidth : Q;
  clientHeight : Q;
  clientWidth : Q
}.

(** [a || b] on numbers: zero is falsy. *)
Definition number_or (a b : Q) : Q := if Qeq_bool a 0 then b else a.

Definition isElementInViewport (layout : Layout) (el : Node) : bool :=
  let rect := getBoundingClientRect layout el in
  Qle_bool 0 (top rect) &&
  Qle_bool 0 (left rect) &&
  Qle_bool (bottom rect)
    (number_or (innerHeight layout) (clientHeight layout)) &&
  Qle_bool (right rect)
    (number_or (innerWidth layout) (clientWidth layout)).

(** An [IntersectionObserverEntry]. *)
Record IntersectionObserverEntry : Set := mkEntry {
  target : Node;
  isIntersecting : bool
}.

(** The observer's callback: what [getElementsVisibleInViewport] resolves
    to when the observer reports [entries]. *)
Definition elementsInViewport (entries : list IntersectionObserverEntry) : list Node :=
  map target (List.filter (fun entry => isIntersecting entry) entries).

(** [elements.find(el => el === node)], as a truth value. *)
Definition found (node : Node) (elements : list Node) : bool :=
  existsb (Nat.eqb node) elements.

(** The three arrays the loop fills. *)
Record Texts : Set := mkTexts {
  texts : list string;
  textsInViewport : list string;
  textsVisibleInViewport : list string
}.

(** [array.push(text)] when [cond] holds. *)
Definition push_if (cond : bool) (text : string) (array : list string) : list string :=
  if cond then array ++ [text] else array.

(** The [for] loop over [rootsList]. *)
Fixpoint collectTexts (layout : Layout) (elementsVisibleInViewport : list Node)
    (rootsList : list TranslationItem) (acc : Texts) : Texts :=
  match rootsList with
  | [] => acc
  | root :: rest =>
      let text := generatedText root in
      if negb (JS.truthy text) then
        collectTexts layout elementsVisibleInViewport rest acc
      else
        let text := JS.trim (JS.replace_tags false (default "" text)) in
        let inViewport := isElementInViewport layout (nodeRef root) in
        let visibleInViewport := found (nodeRef root) elementsVisibleInViewport in
        collectTexts layout elementsVisibleInViewport rest
          (mkTexts (texts acc ++ [text])
                   (push_if inViewport text (textsInViewport acc))
                   (push_if visibleInViewport text (textsVisibleInViewport acc)))
  end.

(** [array.join(" ").split(" ").length]. *)
Definition countWords (array : list string) : nat :=
  List.length (JS.split " " (JS.join " " array)).

(** The object the method returns. *)
Record DocumentTranslationStatistics : Set := mkStatistics {
  stat_texts : list string;
  stat_textsInViewport : list string;
  stat_textsVisibleInViewport : list string;
  wordCount : nat;
  wordCountInViewport : nat;
  wordCountVisibleInViewport : nat
}.

(** An object read through its address. *)
Definition deref (r : Ref) : M TranslationDocument :=
  h <- gets heap ;;
  match h !! r with
  | Some d => ret d
  | None => throw TypeError
  end.

(** Up to [await this.getElementsVisibleInViewport(elements)]: the result
    is [rootsList]. *)
Definition getDocumentTranslationStatistics_begin : M (list TranslationItem) :=
  translationDocument <- translationDocumentOrNew ;;
  d <- deref translationDocument ;;
  let rootsList := roots d in
  let elements := map nodeRef (roots d) in
  call (Observe elements) ;;
  ret rootsList.

(** From the observer's first report to the end. *)
Definition getDocumentTranslationStatistics_resume
    (layout : Layout) (rootsList : list TranslationItem)
    (entries : list IntersectionObserverEntry) : DocumentTranslationStatistics :=
  let elementsVisibleInViewport := elementsInViewport entries in
  let t := collectTexts layout elementsVisibleInViewport rootsList
             (mkTexts [] [] []) in
  mkStatistics (texts t) (textsInViewport t) (textsVisibleInViewport t)
    (countWords (texts t))
    (countWords (textsInViewport t))
    (countWords (textsVisibleInViewport t)).

(** *** Runs used below *)

(** Consecutive status changes: one call of
    [broadcastUpdatedTranslationStatus] per status, in order. *)
Fixpoint broadcastEach (statuses : list TranslationStatus) : M unit :=
  match statuses with
  | [] => ret tt
  | translationStatus :: rest =>
      broadcastUpdatedTranslationStatus translationStatus ;;
      broadcastEach rest
  end.

(** The text the detector is given for a document. *)
Definition detectionSample (d : Document) : string :=
  domElementsToStringWithMaxLength (map content (translationNodes d)) (60 * 1024).

(** A URL the detection accepts. *)
Definition isWebUrl (url : string) : bool :=
  JS.startsWith url "http://" || JS.startsWith url "https://".

(** *** Worlds used as examples *)

Definition exampleFrame : FrameInfo := mkFrameInfo 1 0.

Definition noRoots : TranslationDocument :=
  mkTranslationDocument [] None None false.

Definition paragraph (text : string) : TranslationNode :=
  mkTranslationNode (mkElement text).

(** A page opened from a local file. *)
Definition localPage : World :=
  mkWorld exampleFrame
    (mkDocument "file:///local.html" [paragraph "Hello world."] noRoots None)
    (Some (mkContentWindow None)) [] [] [].

(** A web page with little text. *)
Definition shortPage : World :=
  mkWorld exampleFrame
    (mkDocument "https://example.com" [paragraph "Hello"; paragraph "world."] noRoots
       None)
    (Some (mkContentWindow None)) [] [] [].

(** A web page with two paragraphs and more than 100 characters. *)
Definition longPage : World :=
  mkWorld exampleFrame
    (mkDocument "https://example.com"
       [paragraph "Hello world. This is a test sentence for detection and";
        paragraph "translation purposes, long enough to pass threshold checks easily here."]
       noRoots None)
    (Some (mkContentWindow None)) [] [] [].

(** The same page when [showTranslation()] throws on it. *)
Definition stuckPage : World :=
  mkWorld exampleFrame
    (mkDocument "https://example.com"
       [paragraph "Hello world. This is a test sentence for detection and";
        paragraph "translation purposes, long enough to pass threshold checks easily here."]
       noRoots (Some (Failure "node is gone")))
    (Some (mkContentWindow None)) [] [] [].

(** The same page once its window is gone. *)
Definition closedPage : World := with_contentWindow None longPage.

Definition english : DetectedLanguageResults := mkDetected "en" true.
Definition unsure : DetectedLanguageResults := mkDetected "en" false.

(** *** Live references *)

(** The address names an object of the heap. *)
Definition allocated (r : Ref) (w : World) : bool :=
  (r <? List.length (heap w))%nat.

(** The document stored on the content window, when there is one, is an
    object of the heap: references do not dangle. *)
Definition storedDocumentLive (w : World) : bool :=
  match contentWindow w with
  | Some cw =>
      match translationDocument cw with
      | Some r => allocated r w
      | None => true
      end
  | None => true
  end.

(** The world in which [doTranslation] awaits the translator, for the
    example page. *)
Definition translatingPage : World :=
  snd (doTranslation_begin "en" "de" longPage).

(** *** The loop of the statistics, as maps and filters *)

(** The text pushed for a root: tags replaced by spaces, then trimmed. *)
Definition cleanText (root : TranslationItem) : string :=
  JS.trim (JS.replace_tags false (default "" (generatedText root))).

(** The roots for which the loop does not [continue]. *)
Definition rootsWithText (rootsList : list TranslationItem) : list TranslationItem :=
  List.filter (fun root => JS.truthy (generatedText root)) rootsList.

(** A page with three roots, one of them without text. *)
Definition exampleRoots : list TranslationItem :=
  [mkItem 1 (Some "<p>Hello <b>big</b> world</p>");
   mkItem 2 None;
   mkItem 3 (Some "Second paragraph")].

(** A viewport of 800 by 600 in which node 1 is on screen and the other
    nodes are below the fold. *)
Definition exampleLayout : Layout :=
  mkLayout
    (fun el => if Nat.eqb el 1 then mkDOMRect 10 10 50 300
               else mkDOMRect 900 10 950 300)
    600 800 600 800.

(** *** Notions used to state further properties *)

(** Nothing happens while a method is suspended. *)
Definition undisturbed (w : World) : World := w.

(** The statuses of a list of timers, in order: a timer that patches
    [translationStatus] stands for its status, any other for nothing. *)
Definition statusOfTask (t : Task) : option TranslationStatus :=
  match t with
  | PatchTask [ {| op := op_replace; path := _; value := StatusValue s |} ] => Some s
  | _ => None
  end.

Definition statusesQueued (ts : list Task) : list TranslationStatus :=
  omap statusOfTask ts.

(** The document a call works on when the window holds [stored]: the
    object at the stored address, or the one the constructor builds. *)
Definition documentInUse (w : World) (stored : option nat) : option TranslationDocument :=
  match stored with
  | Some r => heap w !! r
  | None => Some (extracted (document w))
  end.

(** The events a call adds to the trace for building its document. *)
Definition constructionEvents (w : World) (stored : option nat) : list Event :=
  match stored with
  | Some _ => []
  | None => [NewTranslationDocument (List.length (heap w))]
  end.

(** An example page that already holds a document with an error. *)
Definition failedPage : World :=
  snd (doTranslation "en" "de" undisturbed (Rejected (Failure "no backend")) longPage).

(** *** Notions used to state properties of the texts *)

(** [text.replace(/<[^>]*>?/gm, " ").trim()], the cleaning of the loop. *)
Definition clean (text : string) : string :=
  JS.trim (JS.replace_tags false text).

Definition firstCodeUnit (s : string) : option ascii :=
  match s with
  | EmptyString => None
  | String c _ => Some c
  end.

Fixpoint lastCodeUnit (s : string) : option ascii :=
  match s with
  | EmptyString => None
  | String c s' =>
      match lastCodeUnit s' with
      | Some d => Some d
      | None => Some c
      end
  end.

(** The code unit, when there is one, is white space. *)
Definition isWhiteSpace (c : option ascii) : bool :=
  match c with
  | Some c => JS.is_white_space c
  | None => false
  end.

(** A text as the statistics hold it: no "<" in it, no white space at
    either end. *)
Definition cleaned (t : string) : Prop :=
  JS.count "<" t = 0%nat /\
  isWhiteSpace (firstCodeUnit t) = false /\
  isWhiteSpace (lastCodeUnit t) = false.

(** The number of fields one text gives when split at spaces. *)
Definition fieldsOf (t : string) : nat := S (JS.count " " t).

Definition totalFields (array : list string) : nat :=
  list_sum (map fieldsOf array).

(** The observer reported the node as intersecting. *)
Definition reportedIntersecting (entries : list IntersectionObserverEntry)
    (node : Node) : Prop :=
  exists entry, In entry entries /\ target entry = node /\ isIntersecting entry = true.

(** ** The manifest generator

    [generateManifest] builds the extension's manifest from the package
    version, the target browser and the environment, and writes it as JSON
    below [build/<targetBrowser>].  Environment variables are strings or
    [undefined] ([None]). *)

Module Manifest.

Record Env : Set := mkEnv {
  TARGET_BROWSER : option string;
  NODE_ENV : option string;
  BERGAMOT_REST_API_INBOUND_URL : option string
}.

(** [value || fallback] on a string or [undefined]: the empty string is
    falsy. *)
Definition string_or (value : option string) (fallback : string) : string :=
  match value with
  | Some (String c rest) => String c rest
  | _ => fallback
  end.

(** A value inside a template literal. *)
Definition interpolate (value : option string) : string :=
  default "undefined" value.

(** [process.env.NODE_ENV === "production"]. *)
Definition isProduction (env : Env) : bool :=
  match NODE_ENV env with
  | Some v => String.eqb v "production"
  | None => false
  end.

(** [process.env.TARGET_BROWSER || "firefox"], read when the module loads. *)
Definition targetBrowser (env : Env) : string :=
  string_or (TARGET_BROWSER env) "firefox".

Record ContentScript : Set := mkContentScript {
  js : list string;
  matches : list string;
  all_frames : bool;
  run_at : string;
  match_about_blank : bool
}.

Record BrowserAction : Set := mkBrowserAction {
  default_icon : string;
  default_title : string;
  default_popup : string;
  action_browser_style : option bool;
  action_chrome_style : option bool
}.

Record OptionsUi : Set := mkOptionsUi {
  page : string;
  options_browser_style : option bool;
  options_chrome_style : option bool
}.

Record Gecko : Set := mkGecko {
  id : string;
  strict_min_version : string
}.

(** The manifest object; a key that is not set is [None]. *)
Record Manifest : Set := mkManifest {
  manifest_version : Z;
  name : string;
  description : string;
  version : string;
  incognito : string;
  default_locale : string;
  background_scripts : list string;
  content_scripts : list ContentScript;
  permissions : list string;
  icons : list (Z * string);
  browser_action : BrowserAction;
  options_ui : OptionsUi;
  applications_gecko : option Gecko;
  content_security_policy : option string
}.

(** The object literal of [generateManifest]; [env] is the environment
    after [dotenv] has been loaded. *)
Definition baseManifest (packageVersion : option string) (env : Env) : Manifest :=
  mkManifest
    2
    ("Bergamot Translate" ++
     (if negb (isProduction env) then " (DEV)" else ""))%string
    "__MSG_extensionDescription__"
    (interpolate packageVersion)
    "spanning"
    "en_US"
    ["background.js"]
    [mkContentScript ["dom-translation-content-script.js"] ["<all_urls>"]
       false "document_idle" false]
    ["<all_urls>";
     (interpolate (BERGAMOT_REST_API_INBOUND_URL env) ++ "/*")%string;
     "storage";
     "alarms"]
    [(48, "icons/extension-icon.48x48.png");
     (96, "icons/extension-icon.96x96.png");
     (128, "icons/extension-icon.128x128.png")]%Z
    (mkBrowserAction "icons/extension-icon.inactive.38x38.png"
       "__MSG_browserActionButtonTitle__" "main-interface/popup.html" None None)
    (mkOptionsUi "options-ui/options-ui.html" None None)
    None
    None.

(** [if (targetBrowser === "firefox") { ... }]. *)
Definition forFirefox (target : string) (m : Manifest) : Manifest :=
  if String.eqb target "firefox" then
    mkManifest (manifest_version m) (name m) (description m) (version m)
      (incognito m) (default_locale m) (background_scripts m)
      (content_scripts m) (permissions m) (icons m)
      (mkBrowserAction (default_icon (browser_action m))
         (default_title (browser_action m)) (default_popup (browser_action m))
         (Some false) (action_chrome_style (browser_action m)))
      (mkOptionsUi (page (options_ui m)) (Some false)
         (options_chrome_style (options_ui m)))
      (Some (mkGecko "bergamot-browser-extension@browser.mt" "77.0a1"))
      (content_security_policy m)
  else m.

(** [if (targetBrowser === "chrome") { ... }]. *)
Definition forChrome (target : string) (m : Manifest) : Manifest :=
  if String.eqb target "chrome" then
    mkManifest (manifest_version m) (name m) (description m) (version m)
      (incognito m) (default_locale m) (background_scripts m)
      (content_scripts m) (permissions m) (icons m)
      (mkBrowserAction (default_icon (browser_action m))
         (default_title (browser_action m)) (default_popup (browser_action m))
         (action_browser_style (browser_action m)) (Some false))
      (mkOptionsUi (page (options_ui m))
         (options_browser_style (options_ui m)) (Some false))
      (applications_gecko m)
      (Some "script-src 'self' 'unsafe-eval'; object-src 'self';")
  else m.

(** The manifest [generateManifest] writes. *)
Definition generateManifest (packageVersion : option string) (target : string)
    (env : Env) : Manifest :=
  forChrome target (forFirefox target (baseManifest packageVersion env)).

(** The [dotEnvPath] chosen when the script is run as the main module. *)
Definition dotEnvPath (env : Env) : string :=
  if isProduction env then "./.env.production" else "./.env.development".

End Manifest.

(** ** The [translateUi] experiment API: [start]

    The calls [start] makes into the browser, each of which may return or
    throw any value. *)

Module TranslateUi.

Inductive Call : Set :=
| GetTopWindow
| NewTranslationBrowserChromeUi
| ShowURLBarIcon
| ShowTranslationInfoBar.

(** A value a browser call throws: [null] or [undefined], or any other
    value, known by its [message] property ([None] when the property is
    [undefined], as for a thrown string). *)
Inductive Value : Set :=
| Nullish
| Object (message : option string).

(** What [start] rejects with: the [ExtensionError] it constructs from a
    message, or the [TypeError] of reading a property of [null] or
    [undefined]. *)
Inductive Rejection : Set :=
| ExtensionError (message : option string)
| TypeError.

(** The browser as [start] meets it: whether a call throws (and what), and
    what [getTopWindow] returns: [None] for no window, [Some false] for a
    window without [gBrowser], [Some true] for one with. *)
Record Browser : Type := mkBrowser {
  raises : Call -> option Value;
  recentWindow : option bool
}.

Inductive Outcome (E A : Type) : Type :=
| Returned (a : A)
| Raised (e : E).
Arguments Returned {E A} a.
Arguments Raised {E A} e.

(** A computation: the calls made, in order, and how it ended. *)
Definition U (E A : Type) : Type := list Call * Outcome E A.

Definition unit_ {E A} (a : A) : U E A := ([], Returned a).

Definition then_ {E A B} (m : U E A) (k : A -> U E B) : U E B :=
  match m with
  | (calls, Returned a) => let '(more, r) := k a in (calls ++ more, r)
  | (calls, Raised e) => (calls, Raised e)
  end.

(** [try { body } catch (error) { handler(error) }]; what the handler
    throws is what leaves the statement. *)
Definition catch_ {E E' A} (body : U E A) (handler : E -> U E' A) : U E' A :=
  match body with
  | (calls, Returned a) => (calls, Returned a)
  | (calls, Raised e) => let '(more, r) := handler e in (calls ++ more, r)
  end.

Definition invoke (browser : Browser) (c : Call) : U Value unit :=
  match raises browser c with
  | Some thrown => ([c], Raised thrown)
  | None => ([c], Returned tt)
  end.

(** [recentWindow && recentWindow.gBrowser]. *)
Definition hasGBrowser (browser : Browser) : bool :=
  match recentWindow browser with
  | Some gBrowser => gBrowser
  | None => false
  end.

(** The [catch] block: [console.error(error.message, error.stack)], then
    [throw new ExtensionError(error.message)].  Reading [error.message]
    throws when [error] is [null] or [undefined]. *)
Definition surface (error : Value) : U Rejection unit :=
  match error with
  | Nullish => ([], Raised TypeError)
  | Object message => ([], Raised (ExtensionError message))
  end.

(** [start()]: the [try] block and its [catch]. *)
Definition start (browser : Browser) : U Rejection unit :=
  catch_
    (then_ (invoke browser GetTopWindow) (fun _ =>
     if hasGBrowser browser then
       then_ (invoke browser NewTranslationBrowserChromeUi) (fun _ =>
       then_ (invoke browser ShowURLBarIcon) (fun _ =>
       invoke browser ShowTranslationInfoBar))
     else unit_ tt))
    surface.

(** A browser in which showing the URL bar icon fails. *)
Definition brokenIcon : Browser :=
  mkBrowser (fun c => match c with
                      | ShowURLBarIcon => Some (Object (Some "no URL bar"))
                      | _ => None
                      end)
            (Some true).

End TranslateUi.

(** ** Properties of the string primitives *)

Section StringFacts.

Lemma substring_prefix_length (n : nat) (s : string) :
  String.length (substring 0 n s) = Nat.min n (String.length s).
Proof.
  revert n; induction s as [|c s IH]; intros [|n]; simpl; auto.
Qed.

Lemma substring_is_prefix (n : nat) (s : string) :
  String.prefix (substring 0 n s) s = true.
Proof.
  revert n; induction s as [|c s IH]; intros [|n]; simpl; auto.
  destruct (ascii_dec c c) as [_|ne]; [apply IH | now destruct ne].
Qed.

Lemma substr_length (s : string) (len : N) :
  JS.length (JS.substr s 0 len) = N.min len (JS.length s).
Proof.
  unfold JS.length, JS.substr.
  change (N.to_nat 0) with 0%nat.
  rewrite substring_prefix_length.
  lia.
Qed.

Lemma split_length (c : ascii) (s : string) :
  List.length (JS.split c s) = S (JS.count c s).
Proof.
  induction s as [|d s IH]; simpl; [reflexivity|].
  destruct (Ascii.eqb d c); simpl.
  - now rewrite IH.
  - destruct (JS.split c s) as [|f fs]; simpl in *; congruence.
Qed.

Lemma split_nonempty (c : ascii) (s : string) : JS.split c s <> [].
Proof.
  intros E. pose proof (split_length c s) as L. rewrite E in L. discriminate.
Qed.

(** Joining the fields with the separator gives the string back. *)
Lemma join_split (c : ascii) (s : string) :
  JS.join (String c "") (JS.split c s) = s.
Proof.
  induction s as [|d s IH]; simpl; [reflexivity|].
  destruct (Ascii.eqb_spec d c) as [->|ne].
  - pose proof (split_nonempty c s) as NE.
    destruct (JS.split c s) as [|f fs]; [now destruct NE|].
    change (String c (JS.join (String c "") (f :: fs)) = String c s).
    now rewrite IH.
  - pose proof (split_nonempty c s) as NE.
    destruct (JS.split c s) as [|f fs]; [now destruct NE|].
    destruct fs as [|g gs].
    + simpl in *. now rewrite IH.
    + change (String d (JS.join (String c "") (f :: g :: gs)) = String d s).
      now rewrite IH.
Qed.

(** No field holds the separator. *)
Lemma split_fields (c : ascii) (s : string) :
  Forall (fun f => JS.count c f = 0) (JS.split c s).
Proof.
  induction s as [|d s IH]; simpl.
  - repeat constructor.
  - destruct (Ascii.eqb d c) eqn:E.
    + constructor; [reflexivity | exact IH].
    + destruct (JS.split c s) as [|f fs].
      * constructor; [simpl; now rewrite E | constructor].
      * inversion IH; subst. constructor; [simpl; rewrite E; assumption | assumption].
Qed.

End StringFacts.

(** ** Properties of the controller *)

Lemma broadcast_run (translationStatus : TranslationStatus) (w : World) :
  broadcastUpdatedTranslationStatus translationStatus w =
  (Normal tt, with_timers (timers w ++ [PatchTask (statusPatch translationStatus)]) w).
Proof. reflexivity. Qed.

(** After [k] turns of the event loop the first [k] pending timers have
    fired, one per turn, and the others are still pending. *)
Lemma ticks_run (k : nat) (w : World) :
  ticks k w =
  with_timers (drop k (timers w))
    (with_trace (trace w ++ map (fire w) (take k (timers w))) w).
Proof.
  revert w; induction k as [|k IH]; intros w.
  - cbn [ticks]. rewrite take_0, drop_0. cbn [map]. rewrite app_nil_r.
    now destruct w.
  - cbn [ticks]. rewrite IH. unfold tick.
    destruct w as [fi doc win h ts tr]. cbn [timers].
    destruct ts as [|t rest].
    + cbn [timers]. rewrite !take_nil, !drop_nil. reflexivity.
    + unfold with_timers, with_trace.
      cbn [timers trace frameInfo document contentWindow heap drop take map].
      rewrite <- app_assoc. reflexivity.
Qed.

Lemma runTimers_trace (w : World) :
  trace (runTimers w) = trace w ++ map (fire w) (timers w).
Proof.
  unfold runTimers. rewrite ticks_run, firstn_all. now destruct w.
Qed.

Lemma broadcastEach_run (statuses : list TranslationStatus) (w : World) :
  broadcastEach statuses w =
  (Normal tt,
   with_timers
     (timers w ++ map (fun s => PatchTask (statusPatch s)) statuses) w).
Proof.
  revert w; induction statuses as [|s rest IH]; intros w.
  - simpl. unfold ret. rewrite app_nil_r. now destruct w.
  - cbn [broadcastEach]. unfold bind. rewrite broadcast_run, IH.
    destruct w; unfold with_timers; simpl. now rewrite <- app_assoc.
Qed.

(** C8. Every call of [broadcastUpdatedTranslationStatus] sets a timer of
    its own and calls nothing at once; each timer fires in a turn of the
    event loop of its own, so after [k] turns exactly the first [k] pending
    callbacks have run.  When all have fired, the extension state has
    received one patch per call, in call order, each made of a single
    [replace] of [translationStatus] with the status of that call.  Status
    changes that follow one another at once are therefore all observed,
    not only the last. *)
Theorem broadcast_one_patch_per_call (statuses : list TranslationStatus) (w : World) :
  let w' := snd (broadcastEach statuses w) in
  fst (broadcastEach statuses w) = Normal tt /\
  trace w' = trace w /\
  timers w' = timers w ++ map (fun s => PatchTask (statusPatch s)) statuses /\
  (forall k,
     trace (ticks k w') =
       trace w ++
       map (fire w)
         (take k (timers w ++ map (fun s => PatchTask (statusPatch s)) statuses))) /\
  trace (runTimers w') =
    trace (runTimers w) ++
    map (fun s =>
           PatchState (frameInfo w)
             [mkOperation op_replace ["translationStatus"] (StatusValue s)])
        statuses /\
  List.length (trace (runTimers w')) =
    (List.length (trace (runTimers w)) + List.length statuses)%nat.
Proof.
  intros w'. subst w'. rewrite broadcastEach_run. cbn [fst snd].
  assert (E : trace (runTimers (with_timers
              (timers w ++ map (fun s => PatchTask (statusPatch s)) statuses) w)) =
            trace (runTimers w) ++
            map (fun s => PatchState (frameInfo w) (statusPatch s)) statuses).
  { rewrite !runTimers_trace. destruct w; simpl.
    rewrite map_app, map_map, <- app_assoc. reflexivity. }
  split; [reflexivity|].
  split; [now destruct w|].
  split; [now destruct w|].
  split; [intros k; rewrite ticks_run; now destruct w|].
  split; [exact E|].
  rewrite E, length_app, length_map. reflexivity.
Qed.

(** C3. When the document's URL starts neither with "http://" nor with
    "https://", [attemptToDetectLanguage] sets exactly one timer, the
    broadcast of UNAVAILABLE, and returns: DETECTING_LANGUAGE is not
    broadcast and the trace is unchanged, so the detector is not called,
    whatever happens afterwards. *)
Theorem detection_unavailable_off_web
    (between : World -> World) (settled : Settled DetectedLanguageResults)
    (w : World) :
  JS.startsWith (location (document w)) "http://" = false ->
  JS.startsWith (location (document w)) "https://" = false ->
  attemptToDetectLanguage between settled w =
    (Normal tt,
     with_timers (timers w ++ [PatchTask (statusPatch UNAVAILABLE)]) w) /\
  attemptToDetectLanguage_begin w =
    (Normal DetectionReturned,
     with_timers (timers w ++ [PatchTask (statusPatch UNAVAILABLE)]) w) /\
  trace (snd (attemptToDetectLanguage between settled w)) = trace w.
Proof.
  intros Hhttp Hhttps.
  assert (B : attemptToDetectLanguage_begin w =
    (Normal DetectionReturned,
     with_timers (timers w ++ [PatchTask (statusPatch UNAVAILABLE)]) w)).
  { unfold attemptToDetectLanguage_begin, bind, gets.
    rewrite Hhttp, Hhttps. reflexivity. }
  assert (A : attemptToDetectLanguage between settled w =
    (Normal tt,
     with_timers (timers w ++ [PatchTask (statusPatch UNAVAILABLE)]) w)).
  { unfold attemptToDetectLanguage, bind. rewrite B. reflexivity. }
  split; [exact A|]. split; [exact B|].
  rewrite A. now destruct w.
Qed.

Lemma detection_unavailable_off_web_witness :
  attemptToDetectLanguage (fun w => w) (Resolved english) localPage =
    (Normal tt, with_timers [PatchTask (statusPatch UNAVAILABLE)] localPage).
Proof.
  exact (proj1 (detection_unavailable_off_web
                  (fun w => w) (Resolved english) localPage eq_refl eq_refl)).
Defined.

(** C4. On a web URL the detection sample is the text contents of the
    translation nodes joined with line feeds and cut to its first 61440
    characters: it is a prefix of the joined text, of length the smaller
    of 61440 and the length of the joined text.  When the sample is
    shorter than 100 characters the method broadcasts
    LANGUAGE_NOT_DETECTED (after DETECTING_LANGUAGE) and returns with the
    trace unchanged, the detector not called; otherwise the detector is
    called with that sample. *)
Theorem detection_sample_gate (w : World) :
  isWebUrl (location (document w)) = true ->
  let text :=
    JS.join LF (map textContent (map content (translationNodes (document w)))) in
  let sample := detectionSample (document w) in
  String.prefix sample text = true /\
  JS.length sample = N.min 61440 (JS.length text) /\
  (JS.length sample <= 61440)%N /\
  attemptToDetectLanguage_begin w =
    if (JS.length sample <? 100)%N then
      (Normal DetectionReturned,
       with_timers
         (timers w ++ [PatchTask (statusPatch DETECTING_LANGUAGE);
                       PatchTask (statusPatch LANGUAGE_NOT_DETECTED)]) w)
    else
      (Normal DetectionAwaits,
       with_trace (trace w ++ [DetectLanguage sample])
         (with_timers
            (timers w ++ [PatchTask (statusPatch DETECTING_LANGUAGE)]) w)).
Proof.
  intros Hweb text sample.
  assert (L : JS.length sample = N.min 61440 (JS.length text)).
  { subst sample text. unfold detectionSample, domElementsToStringWithMaxLength.
    change (60 * 1024)%N with 61440%N. apply substr_length. }
  split.
  { subst sample text. unfold detectionSample, domElementsToStringWithMaxLength,
      JS.substr. change (N.to_nat 0) with 0%nat. apply substring_is_prefix. }
  split; [exact L|].
  split; [rewrite L; apply N.le_min_l|].
  assert (Hgate : negb (JS.startsWith (location (document w)) "http://") &&
                  negb (JS.startsWith (location (document w)) "https://") = false).
  { unfold isWebUrl in Hweb.
    destruct (JS.startsWith (location (document w)) "http://"); [reflexivity|].
    simpl in Hweb. rewrite Hweb. reflexivity. }
  unfold attemptToDetectLanguage_begin, bind, gets.
  rewrite Hgate, broadcast_run. cbv beta iota.
  change (document (with_timers ?t w)) with (document w).
  fold (detectionSample (document w)). fold sample.
  destruct (JS.length sample <? 100)%N.
  - rewrite broadcast_run. unfold ret. destruct w; unfold with_timers; simpl.
    now rewrite <- app_assoc.
  - unfold call, modify, ret. destruct w; reflexivity.
Qed.

Lemma detection_sample_gate_witness :
  attemptToDetectLanguage_begin shortPage =
    (Normal DetectionReturned,
     with_timers [PatchTask (statusPatch DETECTING_LANGUAGE);
                  PatchTask (statusPatch LANGUAGE_NOT_DETECTED)] shortPage).
Proof.
  exact (proj2 (proj2 (proj2 (detection_sample_gate shortPage eq_refl)))).
Defined.

(** What [attemptToDetectLanguage] does with an answer while the window is
    there: the result is saved, then the status is chosen. *)
Lemma detection_resume_live (result : DetectedLanguageResults) (w : World)
    (cw : ContentWindow) :
  contentWindow w = Some cw ->
  attemptToDetectLanguage_resume (Resolved result) w =
    (Normal tt,
     with_timers
       (timers w ++
        [PatchTask (detectionPatch result);
         PatchTask (statusPatch
                      (if confident result then OFFER else LANGUAGE_NOT_DETECTED))])
       w).
Proof.
  intros Hwin.
  unfold attemptToDetectLanguage_resume, bind, gets. rewrite Hwin.
  unfold setTimeout, modify. cbv beta iota.
  destruct (confident result); cbn [negb]; rewrite broadcast_run;
    destruct w; unfold with_timers; simpl; now rewrite <- app_assoc.
Qed.

(** C5. When the detector's answer arrives and the content window is still
    there: an answer that is not confident makes the method broadcast
    LANGUAGE_NOT_DETECTED; a confident answer makes it broadcast OFFER, and
    the answer is kept in the frame's state: once the timers fire, the
    extension state has received the [add] patch carrying it, then the
    OFFER patch. *)
Theorem detection_answer_decides_status (language : string) (w : World)
    (cw : ContentWindow) :
  contentWindow w = Some cw ->
  let doubtful := mkDetected language false in
  let sure := mkDetected language true in
  attemptToDetectLanguage_resume (Resolved doubtful) w =
    (Normal tt,
     with_timers
       (timers w ++ [PatchTask (detectionPatch doubtful);
                     PatchTask (statusPatch LANGUAGE_NOT_DETECTED)]) w) /\
  attemptToDetectLanguage_resume (Resolved sure) w =
    (Normal tt,
     with_timers
       (timers w ++ [PatchTask (detectionPatch sure);
                     PatchTask (statusPatch OFFER)]) w) /\
  trace (runTimers (snd (attemptToDetectLanguage_resume (Resolved sure) w))) =
    trace (runTimers w) ++
    [PatchState (frameInfo w)
       [mkOperation op_add ["detectedLanguageResults"] (DetectionValue sure)];
     PatchState (frameInfo w) (statusPatch OFFER)].
Proof.
  intros Hwin doubtful sure.
  rewrite (detection_resume_live doubtful w cw Hwin).
  rewrite (detection_resume_live sure w cw Hwin).
  split; [reflexivity|]. split; [reflexivity|].
  cbn [snd]. rewrite !runTimers_trace. destruct w; simpl.
  rewrite map_app, <- app_assoc. reflexivity.
Qed.

Lemma detection_answer_decides_status_witness :
  attemptToDetectLanguage_resume (Resolved english) longPage =
    (Normal tt,
     with_timers [PatchTask (detectionPatch english);
                  PatchTask (statusPatch OFFER)] longPage).
Proof.
  exact (proj1 (proj2 (detection_answer_decides_status
                         "en" longPage (mkContentWindow None) eq_refl))).
Defined.

(** C6. When the detector's answer arrives and the content window
    reference is falsy, the method sets exactly one timer, the one that
    calls [deleteDocumentTranslationStateByFrameInfo] for the frame, and
    returns: no patch and no status broadcast is queued for that answer,
    and once the timers fire the extension state has received the delete
    call and nothing else from it. *)
Theorem stale_detection_deletes_state (result : DetectedLanguageResults)
    (w : World) :
  contentWindow w = None ->
  attemptToDetectLanguage_resume (Resolved result) w =
    (Normal tt, with_timers (timers w ++ [DeleteTask]) w) /\
  trace (snd (attemptToDetectLanguage_resume (Resolved result) w)) = trace w /\
  trace (runTimers (snd (attemptToDetectLanguage_resume (Resolved result) w))) =
    trace (runTimers w) ++ [DeleteState (frameInfo w)].
Proof.
  intros Hwin.
  assert (E : attemptToDetectLanguage_resume (Resolved result) w =
              (Normal tt, with_timers (timers w ++ [DeleteTask]) w)).
  { unfold attemptToDetectLanguage_resume, bind, gets. rewrite Hwin. reflexivity. }
  rewrite E. split; [reflexivity|]. cbn [snd]. split; [now destruct w|].
  rewrite !runTimers_trace. destruct w; simpl.
  rewrite map_app, <- app_assoc. reflexivity.
Qed.

Lemma stale_detection_deletes_state_witness :
  trace (runTimers (snd (attemptToDetectLanguage_resume (Resolved english) closedPage))) =
    [DeleteState exampleFrame].
Proof.
  exact (proj2 (proj2 (stale_detection_deletes_state english closedPage eq_refl))).
Defined.

(** C9. When the detector's answer arrives and the content window is still
    there, the method queues the [add] patch of [detectedLanguageResults]
    carrying the answer before it looks at [confident], for every answer:
    whether the answer is confident or not, the first thing the extension
    state receives for it is that patch, followed by the status patch. *)
Theorem detection_answer_always_saved (result : DetectedLanguageResults)
    (w : World) (cw : ContentWindow) :
  contentWindow w = Some cw ->
  let w' := snd (attemptToDetectLanguage_resume (Resolved result) w) in
  fst (attemptToDetectLanguage_resume (Resolved result) w) = Normal tt /\
  (exists translationStatus,
     timers w' =
       timers w ++
       [PatchTask [mkOperation op_add ["detectedLanguageResults"]
                     (DetectionValue result)];
        PatchTask (statusPatch translationStatus)] /\
     trace (runTimers w') =
       trace (runTimers w) ++
       [PatchState (frameInfo w)
          [mkOperation op_add ["detectedLanguageResults"] (DetectionValue result)];
        PatchState (frameInfo w) (statusPatch translationStatus)]) /\
  In (PatchState (frameInfo w)
        [mkOperation op_add ["detectedLanguageResults"] (DetectionValue result)])
     (trace (runTimers w')).
Proof.
  intros Hwin w'. subst w'.
  rewrite (detection_resume_live result w cw Hwin). cbn [fst snd].
  assert (T : trace (runTimers (with_timers
                (timers w ++
                 [PatchTask (detectionPatch result);
                  PatchTask (statusPatch
                     (if confident result then OFFER else LANGUAGE_NOT_DETECTED))])
                w)) =
              trace (runTimers w) ++
              [PatchState (frameInfo w) (detectionPatch result);
               PatchState (frameInfo w)
                 (statusPatch
                    (if confident result then OFFER else LANGUAGE_NOT_DETECTED))]).
  { rewrite !runTimers_trace. destruct w; simpl.
    rewrite map_app, <- app_assoc. reflexivity. }
  split; [reflexivity|]. split.
  - exists (if confident result then OFFER else LANGUAGE_NOT_DETECTED).
    split; [now destruct w | exact T].
  - rewrite T. apply in_or_app. right. left. reflexivity.
Qed.

Lemma detection_answer_always_saved_witness :
  In (PatchState exampleFrame
        [mkOperation op_add ["detectedLanguageResults"] (DetectionValue unsure)])
     (trace (runTimers
        (snd (attemptToDetectLanguage_resume (Resolved unsure) longPage)))).
Proof.
  exact (proj2 (proj2 (detection_answer_always_saved
                         unsure longPage (mkContentWindow None) eq_refl))).
Defined.

(** The first segment of [doTranslation] in a world whose window is there:
    the document is the stored one, or a new one at the end of the heap. *)
Lemma doTranslation_begin_run (aFrom aTo : string) (w : World) (cw : ContentWindow) :
  contentWindow w = Some cw ->
  doTranslation_begin aFrom aTo w =
    let '(td, h, made) :=
      match translationDocument cw with
      | Some r => (r, heap w, [])
      | None => (List.length (heap w), heap w ++ [extracted (document w)],
                 [NewTranslationDocument (List.length (heap w))])
      end in
    (Normal td,
     mkWorld (frameInfo w) (document w) (Some (mkContentWindow (Some td)))
       (alter (set_translationError false) td
          (alter (set_translatedTo aTo) td
             (alter (set_translatedFrom aFrom) td h)))
       (timers w ++ [PatchTask (statusPatch TRANSLATING)])
       (trace w ++ made ++ [NewBergamotTranslator td aFrom aTo; Translate td])).
Proof.
  intros Hwin.
  unfold doTranslation_begin, translationDocumentOrNew, newTranslationDocument,
    storeTranslationDocument, assign, call, setTimeout,
    broadcastUpdatedTranslationStatus, setTimeout, modify, bind, gets, ret.
  rewrite Hwin.
  destruct (translationDocument cw) as [r|]; destruct w; simpl in *; subst;
    simpl; rewrite <- ?app_assoc; reflexivity.
Qed.

Lemma doTranslation_resume_rejected (td : Ref) (ex : Exn) (w : World) :
  doTranslation_resume td (Rejected ex) w =
    (Normal tt,
     with_timers (timers w ++ [PatchTask (statusPatch ERROR)])
       (with_heap (alter (set_translationError true) td (heap w)) w)).
Proof. reflexivity. Qed.

Lemma doTranslation_resume_resolved (td : Ref) (w : World) :
  showTranslationThrows (document w) = None ->
  doTranslation_resume td (Resolved tt) w =
    (Normal tt,
     with_timers (timers w ++ [PatchTask (statusPatch TRANSLATED)])
       (with_trace (trace w ++ [ShowTranslation td]) w)).
Proof.
  intros Hshown.
  unfold doTranslation_resume, try_catch, showTranslation, bind, gets, call, modify, ret.
  replace (showTranslationThrows (document (with_trace (trace w ++ [ShowTranslation td]) w)))
    with (showTranslationThrows (document w)) by now destruct w.
  rewrite Hshown. reflexivity.
Qed.

(** [translate()] resolved and [showTranslation()] throws: the [catch]
    takes it as it takes a rejection. *)
Lemma doTranslation_resume_not_shown (td : Ref) (e : Exn) (w : World) :
  showTranslationThrows (document w) = Some e ->
  doTranslation_resume td (Resolved tt) w =
    (Normal tt,
     with_timers (timers w ++ [PatchTask (statusPatch ERROR)])
       (with_heap (alter (set_translationError true) td (heap w))
          (with_trace (trace w ++ [ShowTranslation td]) w))).
Proof.
  intros Hshown.
  unfold doTranslation_resume, try_catch, showTranslation, bind, gets, call, modify,
    throw, ret.
  replace (showTranslationThrows (document (with_trace (trace w ++ [ShowTranslation td]) w)))
    with (showTranslationThrows (document w)) by now destruct w.
  rewrite Hshown. reflexivity.
Qed.

Lemma doTranslation_begin_needs_window (aFrom aTo : string) (w w1 : World) (td : Ref) :
  doTranslation_begin aFrom aTo w = (Normal td, w1) ->
  exists cw, contentWindow w = Some cw.
Proof.
  intros Hbegin. destruct (contentWindow w) as [cw|] eqn:Hwin; [now exists cw|].
  unfold doTranslation_begin, translationDocumentOrNew, bind, gets in Hbegin.
  rewrite Hwin in Hbegin. discriminate.
Qed.

(** The document [doTranslation] holds on to when it suspends is an object
    of the heap, and the translator has just been called on it. *)
Lemma doTranslation_begin_live (aFrom aTo : string) (w w1 : World) (td : Ref) :
  storedDocumentLive w = true ->
  doTranslation_begin aFrom aTo w = (Normal td, w1) ->
  allocated td w1 = true /\
  exists earlier, trace w1 = earlier ++ [Translate td].
Proof.
  intros Hlive Hbegin.
  destruct (doTranslation_begin_needs_window _ _ _ _ _ Hbegin) as [cw Hwin].
  rewrite (doTranslation_begin_run aFrom aTo w cw Hwin) in Hbegin.
  unfold storedDocumentLive in Hlive. rewrite Hwin in Hlive.
  unfold allocated in *.
  destruct (translationDocument cw) as [r|]; inversion Hbegin; subst; clear Hbegin;
    cbn [heap trace]; rewrite !length_alter.
  - split; [exact Hlive|].
    exists (trace w ++ [NewBergamotTranslator td aFrom aTo]).
    rewrite <- app_assoc. reflexivity.
  - split; [rewrite length_app; apply Nat.ltb_lt; simpl; lia|].
    exists (trace w ++ [NewTranslationDocument (List.length (heap w));
                        NewBergamotTranslator (List.length (heap w)) aFrom aTo]).
    rewrite <- app_assoc. reflexivity.
Qed.

(** C1, as the code has it.  Take any call of [doTranslation] that has
    reached [await translator.translate()] holding the document [td], and
    any world [w2] in which the promise settles (objects are not freed
    meanwhile).  If the promise rejects, the method completes normally (the
    rejection does not escape), the document's [translationError] is
    [true], and exactly the broadcast of ERROR is queued.  If it resolves,
    the method calls [showTranslation] on the document and completes
    normally: when [showTranslation] returns, exactly the broadcast of
    TRANSLATED is queued and the heap is as it was; when it throws, the
    same [catch] sets [translationError] to [true] and exactly the
    broadcast of ERROR is queued instead. *)
Theorem translation_outcome (aFrom aTo : string) (w w1 w2 : World) (td : Ref)
    (ex : Exn) :
  storedDocumentLive w = true ->
  doTranslation_begin aFrom aTo w = (Normal td, w1) ->
  (List.length (heap w1) <= List.length (heap w2))%nat ->
  (let w3 := snd (doTranslation_resume td (Rejected ex) w2) in
   fst (doTranslation_resume td (Rejected ex) w2) = Normal tt /\
   translationError <$> heap w3 !! td = Some true /\
   timers w3 = timers w2 ++ [PatchTask (statusPatch ERROR)] /\
   trace w3 = trace w2) /\
  (let w3 := snd (doTranslation_resume td (Resolved tt) w2) in
   fst (doTranslation_resume td (Resolved tt) w2) = Normal tt /\
   trace w3 = trace w2 ++ [ShowTranslation td] /\
   match showTranslationThrows (document w2) with
   | None =>
       timers w3 = timers w2 ++ [PatchTask (statusPatch TRANSLATED)] /\
       heap w3 = heap w2
   | Some _ =>
       timers w3 = timers w2 ++ [PatchTask (statusPatch ERROR)] /\
       translationError <$> heap w3 !! td = Some true
   end).
Proof.
  intros Hlive Hbegin Hkept.
  destruct (doTranslation_begin_live _ _ _ _ _ Hlive Hbegin) as [Halloc _].
  unfold allocated in Halloc. apply Nat.ltb_lt in Halloc.
  assert (Hsome : is_Some (heap w2 !! td)) by (apply lookup_lt_is_Some; lia).
  destruct Hsome as [d Hd].
  split.
  - rewrite doTranslation_resume_rejected. cbn [fst snd].
    split; [reflexivity|]. split; [|split; now destruct w2].
    replace (heap (with_timers (timers w2 ++ [PatchTask (statusPatch ERROR)])
                     (with_heap (alter (set_translationError true) td (heap w2)) w2)))
      with (alter (set_translationError true) td (heap w2)) by now destruct w2.
    rewrite list_lookup_alter_eq, Hd. reflexivity.
  - destruct (showTranslationThrows (document w2)) as [e|] eqn:Hshown.
    + rewrite (doTranslation_resume_not_shown td e w2 Hshown). cbn [fst snd].
      split; [reflexivity|]. split; [now destruct w2|]. split; [now destruct w2|].
      replace (heap (with_timers (timers w2 ++ [PatchTask (statusPatch ERROR)])
                       (with_heap (alter (set_translationError true) td (heap w2))
                          (with_trace (trace w2 ++ [ShowTranslation td]) w2))))
        with (alter (set_translationError true) td (heap w2)) by now destruct w2.
      rewrite list_lookup_alter_eq, Hd. reflexivity.
    + rewrite (doTranslation_resume_resolved td w2 Hshown). cbn [fst snd].
      repeat split; now destruct w2.
Qed.

Lemma translation_outcome_witness :
  doTranslation "en" "de" (fun w => w) (Rejected (Failure "no backend")) longPage =
    (Normal tt,
     with_timers [PatchTask (statusPatch TRANSLATING); PatchTask (statusPatch ERROR)]
       (with_heap [mkTranslationDocument [] (Some "en") (Some "de") true]
          translatingPage)) /\
  translationError <$>
    heap (snd (doTranslation_resume 0 (Rejected (Failure "no backend")) translatingPage))
      !! 0%nat = Some true.
Proof.
  split; [reflexivity|].
  refine (proj1 (proj2 (proj1 (translation_outcome "en" "de" longPage translatingPage
                  translatingPage 0 (Failure "no backend") _ _ _)))).
  - reflexivity.
  - reflexivity.
  - simpl. lia.
Defined.

(** C1 as stated fails where [showTranslation()] throws: [translate()]
    resolves and [showTranslation] is called on the document, yet
    TRANSLATED is never queued; the method queues ERROR and sets the error
    flag. *)
Lemma translation_outcome_counterexample :
  let r := doTranslation "en" "de" (fun w => w) (Resolved tt) stuckPage in
  fst r = Normal tt /\
  In (ShowTranslation 0) (trace (snd r)) /\
  ~ In (PatchTask (statusPatch TRANSLATED)) (timers (snd r)) /\
  timers (snd r) =
    [PatchTask (statusPatch TRANSLATING); PatchTask (statusPatch ERROR)] /\
  translationError <$> heap (snd r) !! 0%nat = Some true.
Proof.
  cbv zeta. split; [reflexivity|]. split; [vm_compute; tauto|].
  split; [|split; reflexivity].
  vm_compute. intros [H|[H|[]]]; discriminate H.
Qed.

Lemma roots_kept_by_assignments (aFrom aTo : string) (td : nat)
    (h : list TranslationDocument) :
  roots <$>
    alter (set_translationError false) td
      (alter (set_translatedTo aTo) td
         (alter (set_translatedFrom aFrom) td h)) !! td =
  roots <$> h !! td.
Proof.
  rewrite !list_lookup_alter_eq. now destruct (h !! td).
Qed.

(** The statistics never store the document they build: the content window
    is as it was. *)
Lemma statistics_leave_window (w : World) :
  contentWindow (snd (getDocumentTranslationStatistics_begin w)) = contentWindow w.
Proof.
  unfold getDocumentTranslationStatistics_begin, translationDocumentOrNew,
    newTranslationDocument, deref, call, modify, bind, gets, ret, throw.
  destruct w as [fi doc [[[r|]]|] h ts tr]; cbn [contentWindow translationDocument];
    try reflexivity.
  - cbn [heap]. now destruct (h !! r).
  - cbn. rewrite lookup_app_r by lia. rewrite Nat.sub_diag. reflexivity.
Qed.

(** C2, as the code has it.  A content window stores at most one
    translation document and [doTranslation] keeps to it: a call on a
    window that holds a document uses that document and constructs none;
    on a window that holds none it constructs one, at a new address, and
    stores it on the window.  Either way the window holds exactly the
    document the call works on, so a second request on the same window, in
    whatever world it is made, works on that same document, constructs
    nothing, and leaves its roots as they were.  The statistics never
    change what the window stores. *)
Theorem translation_document_reused
    (aFrom aTo aFrom2 aTo2 : string) (w w2 : World) (cw : ContentWindow) :
  contentWindow w = Some cw ->
  contentWindow w2 = contentWindow (snd (doTranslation_begin aFrom aTo w)) ->
  let first := doTranslation_begin aFrom aTo w in
  let second := doTranslation_begin aFrom2 aTo2 w2 in
  let td := from_option id (List.length (heap w)) (translationDocument cw) in
  fst first = Normal td /\
  contentWindow (snd first) = Some (mkContentWindow (Some td)) /\
  match translationDocument cw with
  | Some r =>
      td = r /\
      List.length (heap (snd first)) = List.length (heap w) /\
      roots <$> heap (snd first) !! r = roots <$> heap w !! r /\
      trace (snd first) =
        trace w ++ [NewBergamotTranslator r aFrom aTo; Translate r]
  | None =>
      heap (snd first) =
        heap w ++
        [set_translationError false
           (set_translatedTo aTo
              (set_translatedFrom aFrom (extracted (document w))))] /\
      trace (snd first) =
        trace w ++ [NewTranslationDocument td;
                    NewBergamotTranslator td aFrom aTo; Translate td]
  end /\
  fst second = Normal td /\
  contentWindow (snd second) = Some (mkContentWindow (Some td)) /\
  List.length (heap (snd second)) = List.length (heap w2) /\
  roots <$> heap (snd second) !! td = roots <$> heap w2 !! td /\
  trace (snd second) =
    trace w2 ++ [NewBergamotTranslator td aFrom2 aTo2; Translate td] /\
  contentWindow (snd (getDocumentTranslationStatistics_begin w)) = contentWindow w /\
  contentWindow (snd (getDocumentTranslationStatistics_begin w2)) = contentWindow w2.
Proof.
  intros Hwin Hsame first second td.
  pose proof (statistics_leave_window w) as Hstat.
  pose proof (statistics_leave_window w2) as Hstat2.
  subst first second td.
  rewrite (doTranslation_begin_run aFrom aTo w cw Hwin) in *.
  destruct (translationDocument cw) as [r|];
    cbn [fst snd from_option id contentWindow heap trace app] in *;
    rewrite (doTranslation_begin_run aFrom2 aTo2 w2 _ Hsame);
    cbn [translationDocument fst snd contentWindow heap trace app];
    rewrite !length_alter, !roots_kept_by_assignments.
  - repeat split; first [exact Hstat | exact Hstat2].
  - repeat split; try exact Hstat; try exact Hstat2.
    rewrite !alter_app_r_alt by (rewrite ?length_alter; lia).
    rewrite Nat.sub_diag. reflexivity.
Qed.

Lemma translation_document_reused_witness :
  fst (doTranslation_begin "en" "fr" translatingPage) = Normal 0%nat /\
  trace (snd (doTranslation_begin "en" "fr" translatingPage)) =
    trace translatingPage ++ [NewBergamotTranslator 0 "en" "fr"; Translate 0].
Proof.
  pose proof (translation_document_reused "en" "de" "en" "fr" longPage
                translatingPage (mkContentWindow None) eq_refl eq_refl) as H.
  exact (conj (proj1 (proj2 (proj2 (proj2 H))))
              (proj1 (proj2 (proj2 (proj2 (proj2 (proj2 (proj2 (proj2 H))))))))).
Defined.

(** C2 as stated fails beside the statistics: on a window that stores no
    document, [getDocumentTranslationStatistics] constructs one and keeps
    it to itself while it awaits the observer; a [doTranslation] called
    meanwhile finds none stored and constructs a second.  Two translation
    documents then exist for the one window. *)
Lemma translation_document_reused_counterexample :
  let counting := snd (getDocumentTranslationStatistics_begin longPage) in
  let translating := snd (doTranslation_begin "en" "de" counting) in
  contentWindow longPage = contentWindow counting /\
  ~ (List.length (heap translating) <= 1)%nat /\
  heap translating =
    [noRoots; mkTranslationDocument [] (Some "en") (Some "de") false] /\
  trace translating =
    [NewTranslationDocument 0; Observe [];
     NewTranslationDocument 1; NewBergamotTranslator 1 "en" "de"; Translate 1] /\
  contentWindow translating = Some (mkContentWindow (Some 1%nat)).
Proof.
  cbv zeta. split; [reflexivity|]. split; [vm_compute; lia|].
  repeat split.
Qed.

(** C7. [doTranslation] does not look at the content window when the
    translator's promise settles.  On the example page, with the window
    gone while [translate()] was outstanding, the resolved translation is
    still shown on the document and TRANSLATED is still broadcast, and a
    rejected one still sets the error flag and broadcasts ERROR; the
    detection path, in the same world, drops its answer and only queues the
    deletion of the frame's state. *)
Theorem translation_applied_after_window_gone :
  let gone := with_contentWindow None in
  let shown := doTranslation "en" "de" gone (Resolved tt) longPage in
  let failed := doTranslation "en" "de" gone (Rejected (Failure "no backend")) longPage in
  fst shown = Normal tt /\
  contentWindow (snd shown) = None /\
  trace (snd shown) =
    [NewTranslationDocument 0; NewBergamotTranslator 0 "en" "de";
     Translate 0; ShowTranslation 0] /\
  timers (snd shown) =
    [PatchTask (statusPatch TRANSLATING); PatchTask (statusPatch TRANSLATED)] /\
  heap (snd failed) = [mkTranslationDocument [] (Some "en") (Some "de") true] /\
  timers (snd failed) =
    [PatchTask (statusPatch TRANSLATING); PatchTask (statusPatch ERROR)] /\
  timers (snd (attemptToDetectLanguage gone (Resolved english) longPage)) =
    [PatchTask (statusPatch DETECTING_LANGUAGE); DeleteTask].
Proof.
  repeat split.
Qed.

(** The loop of [getDocumentTranslationStatistics] pushes, in the order of
    the roots, the cleaned text of every root that has text: to [texts]
    always, to [textsInViewport] when the root's node lies in the viewport,
    to [textsVisibleInViewport] when the observer reported it. *)
Lemma collectTexts_spec (layout : Layout) (visible : list Node)
    (rootsList : list TranslationItem) (acc : Texts) :
  collectTexts layout visible rootsList acc =
    mkTexts
      (texts acc ++ map cleanText (rootsWithText rootsList))
      (textsInViewport acc ++
       map cleanText
         (List.filter (fun root => isElementInViewport layout (nodeRef root))
            (rootsWithText rootsList)))
      (textsVisibleInViewport acc ++
       map cleanText
         (List.filter (fun root => found (nodeRef root) visible)
            (rootsWithText rootsList))).
Proof.
  revert acc; induction rootsList as [|root rest IH]; intros acc.
  - simpl. rewrite !app_nil_r. now destruct acc.
  - cbn [collectTexts rootsWithText List.filter].
    fold (rootsWithText rest).
    destruct (JS.truthy (generatedText root)); cbn [negb].
    + rewrite IH. cbn [texts textsInViewport textsVisibleInViewport List.filter map].
      fold (cleanText root). unfold push_if.
      destruct (isElementInViewport layout (nodeRef root));
        destruct (found (nodeRef root) visible);
        cbn [map]; rewrite <- ?app_assoc; reflexivity.
    + apply IH.
Qed.

Lemma countWords_spaces (array : list string) :
  countWords array = S (JS.count " " (JS.join " " array)).
Proof. unfold countWords. apply split_length. Qed.

(** C10. Each word count that [getDocumentTranslationStatistics] reports
    ([wordCount], [wordCountInViewport], [wordCountVisibleInViewport]) is
    the number of fields that splitting at spaces gives for the matching
    list of texts joined with single spaces, that is, one more than the
    number of spaces in the joined text; the fields are those of the joined
    text (joining them with spaces gives it back).  So no count is ever 0,
    and a count whose list of texts is empty is 1. *)
Theorem word_counts_are_space_fields (layout : Layout)
    (rootsList : list TranslationItem) (entries : list IntersectionObserverEntry) :
  let s := getDocumentTranslationStatistics_resume layout rootsList entries in
  let fields (array : list string) := JS.split " " (JS.join " " array) in
  let reported (count : nat) (array : list string) :=
    count = List.length (fields array) /\
    JS.join " " (fields array) = JS.join " " array /\
    count = S (JS.count " " (JS.join " " array)) /\
    match array with
    | [] => count = 1%nat
    | _ => (1 <= count)%nat
    end in
  reported (wordCount s) (stat_texts s) /\
  reported (wordCountInViewport s) (stat_textsInViewport s) /\
  reported (wordCountVisibleInViewport s) (stat_textsVisibleInViewport s) /\
  stat_texts s = map cleanText (rootsWithText rootsList).
Proof.
  intros s fields reported.
  assert (R : forall array, reported (countWords array) array).
  { intros array. unfold reported, fields.
    split; [reflexivity|]. split; [apply join_split|].
    split; [apply countWords_spaces|].
    destruct array; [reflexivity|]. rewrite countWords_spaces. lia. }
  subst s. unfold getDocumentTranslationStatistics_resume.
  cbn [wordCount wordCountInViewport wordCountVisibleInViewport
       stat_texts stat_textsInViewport stat_textsVisibleInViewport].
  repeat (split; [apply R|]).
  rewrite collectTexts_spec. reflexivity.
Qed.

(** The statistics of the example page: the tags of the first root become
    spaces, which the count takes for word breaks. *)
Example statistics_of_example_page :
  getDocumentTranslationStatistics_resume exampleLayout exampleRoots
    [mkEntry 1 false; mkEntry 3 true] =
  mkStatistics
    ["Hello  big  world"; "Second paragraph"]
    ["Hello  big  world"]
    ["Second paragraph"]
    7 5 2.
Proof. reflexivity. Qed.

Example statistics_without_roots :
  getDocumentTranslationStatistics_resume exampleLayout [] [] =
  mkStatistics [] [] [] 1 1 1.
Proof. reflexivity. Qed.



(** ** Further properties of the controller *)

(** The first segment of [attemptToDetectLanguage], case by case. *)
Lemma attemptToDetectLanguage_begin_run (w : World) :
  attemptToDetectLanguage_begin w =
    if isWebUrl (location (document w)) then
      if (JS.length (detectionSample (document w)) <? 100)%N then
        (Normal DetectionReturned,
         with_timers
           (timers w ++ [PatchTask (statusPatch DETECTING_LANGUAGE);
                         PatchTask (statusPatch LANGUAGE_NOT_DETECTED)]) w)
      else
        (Normal DetectionAwaits,
         with_trace (trace w ++ [DetectLanguage (detectionSample (document w))])
           (with_timers
              (timers w ++ [PatchTask (statusPatch DETECTING_LANGUAGE)]) w))
    else
      (Normal DetectionReturned,
       with_timers (timers w ++ [PatchTask (statusPatch UNAVAILABLE)]) w).
Proof.
  unfold attemptToDetectLanguage_begin, bind, gets, isWebUrl.
  destruct (JS.startsWith (location (document w)) "http://");
    destruct (JS.startsWith (location (document w)) "https://");
    cbn [negb andb orb]; try reflexivity;
    rewrite broadcast_run; cbv beta iota;
    change (document (with_timers ?t w)) with (document w);
    fold (detectionSample (document w));
    (destruct (JS.length (detectionSample (document w)) <? 100)%N;
     [ rewrite broadcast_run; unfold ret; destruct w; unfold with_timers; simpl;
       now rewrite <- app_assoc
     | unfold call, modify, ret; destruct w; reflexivity ]).
Qed.

(** The second segment of [attemptToDetectLanguage], case by case. *)
Lemma attemptToDetectLanguage_resume_run
    (settled : Settled DetectedLanguageResults) (w : World) :
  attemptToDetectLanguage_resume settled w =
    match settled, contentWindow w with
    | Rejected e, _ => (Throw e, w)
    | Resolved _, None => (Normal tt, with_timers (timers w ++ [DeleteTask]) w)
    | Resolved result, Some _ =>
        (Normal tt,
         with_timers
           (timers w ++
            [PatchTask (detectionPatch result);
             PatchTask (statusPatch
                          (if confident result then OFFER else LANGUAGE_NOT_DETECTED))])
           w)
    end.
Proof.
  destruct settled as [result|e]; [|reflexivity].
  destruct (contentWindow w) as [cw|] eqn:Hwin.
  - exact (detection_resume_live result w cw Hwin).
  - unfold attemptToDetectLanguage_resume, bind, gets. rewrite Hwin. reflexivity.
Qed.

(** X1. When [this.contentWindow] is null at the call, [doTranslation] and
    [getDocumentTranslationStatistics] both fail with a [TypeError] on their
    first statement: nothing is broadcast, no document is constructed, no
    collaborator is called, the world is as it was. *)
Theorem methods_need_content_window (aFrom aTo : string)
    (between : World -> World) (settled : Settled unit) (w : World) :
  contentWindow w = None ->
  doTranslation aFrom aTo between settled w = (Throw TypeError, w) /\
  getDocumentTranslationStatistics_begin w = (Throw TypeError, w).
Proof.
  intros Hwin.
  unfold doTranslation, doTranslation_begin, getDocumentTranslationStatistics_begin,
    translationDocumentOrNew, bind, gets.
  rewrite Hwin. split; reflexivity.
Qed.

Lemma methods_need_content_window_witness :
  doTranslation "en" "de" undisturbed (Resolved tt) closedPage =
    (Throw TypeError, closedPage).
Proof.
  exact (proj1 (methods_need_content_window "en" "de" undisturbed (Resolved tt)
                  closedPage eq_refl)).
Defined.

(** The heap when [doTranslation] suspends: the document in use at [td]
    with its languages set and its error flag cleared. *)
Lemma doTranslation_begin_heap (aFrom aTo : string) (w : World) (cw : ContentWindow)
    (d0 : TranslationDocument) :
  contentWindow w = Some cw ->
  documentInUse w (translationDocument cw) = Some d0 ->
  let td := from_option id (List.length (heap w)) (translationDocument cw) in
  let w1 := snd (doTranslation_begin aFrom aTo w) in
  heap w1 !! td =
    Some (mkTranslationDocument (roots d0) (Some aFrom) (Some aTo) false) /\
  (forall r, r <> td -> heap w1 !! r = heap w !! r).
Proof.
  intros Hwin Huse td w1. subst td w1.
  rewrite (doTranslation_begin_run aFrom aTo w cw Hwin).
  destruct (translationDocument cw) as [r0|];
    cbn [documentInUse from_option id snd heap] in *.
  - split.
    + rewrite !list_lookup_alter_eq, Huse. reflexivity.
    + intros r Hne. now rewrite !list_lookup_alter_ne by congruence.
  - injection Huse as <-. split.
    + rewrite !list_lookup_alter_eq.
      rewrite lookup_app_r by lia. rewrite Nat.sub_diag. reflexivity.
    + intros r Hne. rewrite !list_lookup_alter_ne by congruence.
      destruct (Nat.lt_ge_cases r (List.length (heap w))) as [Hlt|Hge].
      * now rewrite lookup_app_l.
      * rewrite (lookup_ge_None_2 (heap w)) by exact Hge.
        apply lookup_ge_None_2. rewrite length_app. simpl. lia.
Qed.



Lemma doTranslation_undisturbed (aFrom aTo : string) (settled : Settled unit)
    (w : World) :
  doTranslation aFrom aTo undisturbed settled w =
    match doTranslation_begin aFrom aTo w with
    | (Normal td, w1) => doTranslation_resume td settled w1
    | (Throw e, w1) => (Throw e, w1)
    end.
Proof.
  unfold doTranslation, bind, modify, undisturbed.
  now destruct (doTranslation_begin aFrom aTo w) as [[td|e] w1].
Qed.

(** A whole call of [doTranslation] with nothing happening meanwhile,
    in terms of its first segment. *)
Lemma doTranslation_undisturbed_run (aFrom aTo : string) (settled : Settled unit)
    (w : World) (cw : ContentWindow) :
  contentWindow w = Some cw ->
  let td := from_option id (List.length (heap w)) (translationDocument cw) in
  let w1 := snd (doTranslation_begin aFrom aTo w) in
  doTranslation aFrom aTo undisturbed settled w = doTranslation_resume td settled w1 /\
  contentWindow w1 = Some (mkContentWindow (Some td)) /\
  timers w1 = timers w ++ [PatchTask (statusPatch TRANSLATING)] /\
  trace w1 =
    trace w ++ constructionEvents w (translationDocument cw) ++
    [NewBergamotTranslator td aFrom aTo; Translate td].
Proof.
  intros Hwin td w1. subst td w1.
  rewrite doTranslation_undisturbed.
  rewrite (doTranslation_begin_run aFrom aTo w cw Hwin).
  destruct (translationDocument cw); repeat split.
Qed.

(** [doTranslation] leaves the page's document as it is. *)
Lemma doTranslation_begin_document (aFrom aTo : string) (w : World) :
  document (snd (doTranslation_begin aFrom aTo w)) = document w.
Proof.
  destruct (contentWindow w) as [cw|] eqn:Hwin.
  - rewrite (doTranslation_begin_run aFrom aTo w cw Hwin).
    now destruct (translationDocument cw).
  - unfold doTranslation_begin, translationDocumentOrNew, bind, gets.
    rewrite Hwin. reflexivity.
Qed.

(** X3. A translation that fails and is asked for again, on a page where
    [showTranslation()] returns: the first call ends normally with the
    error flag of the document set, the second call works on the same
    document, clears the flag and writes the new language pair, and no
    second document is constructed.  The statuses queued are TRANSLATING,
    ERROR, TRANSLATING, TRANSLATED, in this order. *)
Theorem translation_retry_clears_error
    (aFrom aTo aFrom2 aTo2 : string) (ex : Exn) (w : World)
    (cw : ContentWindow) (d0 : TranslationDocument) :
  contentWindow w = Some cw ->
  documentInUse w (translationDocument cw) = Some d0 ->
  showTranslationThrows (document w) = None ->
  let td := from_option id (List.length (heap w)) (translationDocument cw) in
  let first := doTranslation aFrom aTo undisturbed (Rejected ex) w in
  let second := doTranslation aFrom2 aTo2 undisturbed (Resolved tt) (snd first) in
  fst first = Normal tt /\
  heap (snd first) !! td =
    Some (mkTranslationDocument (roots d0) (Some aFrom) (Some aTo) true) /\
  fst second = Normal tt /\
  heap (snd second) !! td =
    Some (mkTranslationDocument (roots d0) (Some aFrom2) (Some aTo2) false) /\
  List.length (heap (snd second)) = List.length (heap (snd first)) /\
  timers (snd second) =
    timers w ++ map (fun s => PatchTask (statusPatch s))
                  [TRANSLATING; ERROR; TRANSLATING; TRANSLATED] /\
  trace (snd second) =
    trace w ++ constructionEvents w (translationDocument cw) ++
    [NewBergamotTranslator td aFrom aTo; Translate td;
     NewBergamotTranslator td aFrom2 aTo2; Translate td; ShowTranslation td].
Proof.
  intros Hwin Huse Hshown td first second.
  destruct (doTranslation_undisturbed_run aFrom aTo (Rejected ex) w cw Hwin)
    as (E1 & Hwin1 & Ht1 & Htr1).
  pose proof (doTranslation_begin_document aFrom aTo w) as Hdoc1.
  destruct (doTranslation_begin_heap aFrom aTo w cw d0 Hwin Huse) as [Hd1 _].
  fold td in E1, Hwin1, Htr1, Hd1.
  set (w1 := snd (doTranslation_begin aFrom aTo w)) in *.
  assert (F : first =
    (Normal tt,
     with_timers (timers w1 ++ [PatchTask (statusPatch ERROR)])
       (with_heap (alter (set_translationError true) td (heap w1)) w1))).
  { subst first. rewrite E1. apply doTranslation_resume_rejected. }
  set (wf := with_timers (timers w1 ++ [PatchTask (statusPatch ERROR)])
               (with_heap (alter (set_translationError true) td (heap w1)) w1)) in *.
  assert (Hheapf : heap wf = alter (set_translationError true) td (heap w1))
    by now destruct w1.
  assert (Hdf : heap wf !! td =
    Some (mkTranslationDocument (roots d0) (Some aFrom) (Some aTo) true)).
  { rewrite Hheapf, list_lookup_alter_eq, Hd1. reflexivity. }
  assert (Hwinf : contentWindow wf = Some (mkContentWindow (Some td))).
  { rewrite <- Hwin1. now destruct w1. }
  assert (Htf : timers wf = timers w ++ [PatchTask (statusPatch TRANSLATING);
                                         PatchTask (statusPatch ERROR)]).
  { replace (timers wf) with (timers w1 ++ [PatchTask (statusPatch ERROR)])
      by now destruct w1.
    rewrite Ht1, <- app_assoc. reflexivity. }
  assert (Htrf : trace wf = trace w1) by now destruct w1.
  assert (Hdocf : document wf = document w) by (rewrite <- Hdoc1; now destruct w1).
  destruct (doTranslation_undisturbed_run aFrom2 aTo2 (Resolved tt) wf _ Hwinf)
    as (E2 & _ & Ht2 & Htr2).
  destruct (doTranslation_begin_heap aFrom2 aTo2 wf _ _ Hwinf Hdf) as [Hd2 _].
  cbn [translationDocument from_option id constructionEvents app roots] in E2, Ht2, Htr2, Hd2.
  set (w2 := snd (doTranslation_begin aFrom2 aTo2 wf)) in *.
  assert (Hlen2 : List.length (heap w2) = List.length (heap wf)).
  { subst w2. rewrite (doTranslation_begin_run aFrom2 aTo2 wf _ Hwinf).
    cbn [translationDocument snd heap]. now rewrite !length_alter. }
  assert (S : second =
    (Normal tt,
     with_timers (timers w2 ++ [PatchTask (statusPatch TRANSLATED)])
       (with_trace (trace w2 ++ [ShowTranslation td]) w2))).
  { subst second. rewrite F. cbn [snd]. rewrite E2.
    apply doTranslation_resume_resolved.
    subst w2. now rewrite doTranslation_begin_document, Hdocf. }
  rewrite F, S. cbn [fst snd].
  split; [reflexivity|]. split; [exact Hdf|]. split; [reflexivity|].
  split; [rewrite <- Hd2; now destruct w2|].
  split; [rewrite <- Hlen2; now destruct w2|].
  split.
  - replace (timers (with_timers (timers w2 ++ [PatchTask (statusPatch TRANSLATED)])
                       (with_trace (trace w2 ++ [ShowTranslation td]) w2)))
      with (timers w2 ++ [PatchTask (statusPatch TRANSLATED)]) by now destruct w2.
    rewrite Ht2, Htf. cbn [map]. rewrite <- !app_assoc. reflexivity.
  - replace (trace (with_timers (timers w2 ++ [PatchTask (statusPatch TRANSLATED)])
                      (with_trace (trace w2 ++ [ShowTranslation td]) w2)))
      with (trace w2 ++ [ShowTranslation td]) by now destruct w2.
    rewrite Htr2, Htrf, Htr1. rewrite <- !app_assoc. reflexivity.
Qed.

Lemma translation_retry_clears_error_witness :
  heap (snd (doTranslation "en" "fr" undisturbed (Resolved tt) failedPage)) !! 0%nat =
    Some (mkTranslationDocument [] (Some "en") (Some "fr") false).
Proof.
  exact (proj1 (proj2 (proj2 (proj2
    (translation_retry_clears_error "en" "de" "en" "fr" (Failure "no backend")
       longPage (mkContentWindow None) noRoots eq_refl eq_refl eq_refl))))).
Defined.

(** X4. One call of [attemptToDetectLanguage] calls the language detector at
    most once, and exactly when the URL is a web URL and the sample has at
    least 100 characters; the detector is then given the sample, and this
    is the only case in which the method suspends. *)
Theorem detector_called_exactly_when (w : World) :
  let sample := detectionSample (document w) in
  let asked := isWebUrl (location (document w)) && (100 <=? JS.length sample)%N in
  fst (attemptToDetectLanguage_begin w) =
    Normal (if asked then DetectionAwaits else DetectionReturned) /\
  trace (snd (attemptToDetectLanguage_begin w)) =
    trace w ++ (if asked then [DetectLanguage sample] else []).
Proof.
  intros sample asked. subst sample asked.
  rewrite attemptToDetectLanguage_begin_run, N.leb_antisym.
  destruct (isWebUrl (location (document w))); cbn [andb].
  - destruct (JS.length (detectionSample (document w)) <? 100)%N; cbn [negb fst snd];
      (split; [reflexivity|]); destruct w; simpl; now rewrite ?app_nil_r.
  - cbn [fst snd]. split; [reflexivity|]. destruct w; simpl; now rewrite app_nil_r.
Qed.

(** X5. When the detector's promise rejects, [attemptToDetectLanguage]
    rejects with the same reason and does nothing more: after the
    DETECTING_LANGUAGE broadcast and the detector call it queues no status
    and no deletion, so the frame is left in DETECTING_LANGUAGE. *)
Theorem detector_failure_escapes (between : World -> World) (e : Exn) (w : World) :
  isWebUrl (location (document w)) = true ->
  (100 <=? JS.length (detectionSample (document w)))%N = true ->
  attemptToDetectLanguage between (Rejected e) w =
    (Throw e,
     between
       (with_trace (trace w ++ [DetectLanguage (detectionSample (document w))])
          (with_timers
             (timers w ++ [PatchTask (statusPatch DETECTING_LANGUAGE)]) w))).
Proof.
  intros Hweb Hlong.
  unfold attemptToDetectLanguage, bind.
  rewrite attemptToDetectLanguage_begin_run, Hweb.
  rewrite N.leb_antisym in Hlong. apply negb_true_iff in Hlong. rewrite Hlong.
  reflexivity.
Qed.

Lemma detector_failure_escapes_witness :
  fst (attemptToDetectLanguage undisturbed (Rejected (Failure "no detector")) longPage) =
    Throw (Failure "no detector").
Proof.
  exact (f_equal fst (detector_failure_escapes undisturbed (Failure "no detector")
                        longPage eq_refl eq_refl)).
Defined.

(** X6. Language detection leaves translation documents alone: neither
    segment of [attemptToDetectLanguage] constructs, writes or stores a
    document, or changes the window; the second segment calls no
    collaborator at once, all it does goes through timers. *)
Theorem detection_leaves_documents (settled : Settled DetectedLanguageResults)
    (w : World) :
  let b := snd (attemptToDetectLanguage_begin w) in
  let r := snd (attemptToDetectLanguage_resume settled w) in
  heap b = heap w /\ contentWindow b = contentWindow w /\
  heap r = heap w /\ contentWindow r = contentWindow w /\
  trace r = trace w /\
  (exists queued, timers b = timers w ++ queued) /\
  (exists queued, timers r = timers w ++ queued).
Proof.
  intros b r. subst b r.
  rewrite attemptToDetectLanguage_begin_run, attemptToDetectLanguage_resume_run.
  assert (Hb :
    forall x : Completion DetectionStep * World,
      x = (if isWebUrl (location (document w)) then
             if (JS.length (detectionSample (document w)) <? 100)%N then
               (Normal DetectionReturned,
                with_timers
                  (timers w ++ [PatchTask (statusPatch DETECTING_LANGUAGE);
                                PatchTask (statusPatch LANGUAGE_NOT_DETECTED)]) w)
             else
               (Normal DetectionAwaits,
                with_trace (trace w ++ [DetectLanguage (detectionSample (document w))])
                  (with_timers
                     (timers w ++ [PatchTask (statusPatch DETECTING_LANGUAGE)]) w))
           else
             (Normal DetectionReturned,
              with_timers (timers w ++ [PatchTask (statusPatch UNAVAILABLE)]) w)) ->
      heap (snd x) = heap w /\ contentWindow (snd x) = contentWindow w /\
      exists queued, timers (snd x) = timers w ++ queued).
  { intros x ->.
    destruct (isWebUrl (location (document w)));
      [destruct (JS.length (detectionSample (document w)) <? 100)%N|];
      cbn [snd]; (split; [now destruct w|]); (split; [now destruct w|]);
      eexists; destruct w; reflexivity. }
  destruct (Hb _ eq_refl) as (H1 & H2 & H3).
  split; [exact H1|]. split; [exact H2|].
  destruct settled as [result|e]; [destruct (contentWindow w) eqn:Hwin|];
    cbn [snd]; repeat split; try (now destruct w); try exact H3;
    try (eexists; destruct w; reflexivity).
  exists []. now rewrite app_nil_r.
Qed.


(** X7. Detection followed by translation on a web page with enough text,
    a confident answer, a translator that succeeds and a
    [showTranslation()] that returns, nothing else happening meanwhile:
    both calls end normally, the statuses queued are DETECTING_LANGUAGE,
    OFFER, TRANSLATING, TRANSLATED in this order, and the collaborators are
    called in the order detector, translator, [showTranslation]. *)
Theorem detection_then_translation (lang aFrom aTo : string) (w : World)
    (cw : ContentWindow) :
  isWebUrl (location (document w)) = true ->
  (100 <=? JS.length (detectionSample (document w)))%N = true ->
  contentWindow w = Some cw ->
  showTranslationThrows (document w) = None ->
  let td := from_option id (List.length (heap w)) (translationDocument cw) in
  let detected :=
    attemptToDetectLanguage undisturbed (Resolved (mkDetected lang true)) w in
  let translated :=
    doTranslation aFrom aTo undisturbed (Resolved tt) (snd detected) in
  fst detected = Normal tt /\
  fst translated = Normal tt /\
  statusesQueued (timers (snd translated)) =
    statusesQueued (timers w) ++
    [DETECTING_LANGUAGE; OFFER; TRANSLATING; TRANSLATED] /\
  trace (snd translated) =
    trace w ++ [DetectLanguage (detectionSample (document w))] ++
    constructionEvents w (translationDocument cw) ++
    [NewBergamotTranslator td aFrom aTo; Translate td; ShowTranslation td].
Proof.
  intros Hweb Hlong Hwin Hshown td detected translated.
  rewrite N.leb_antisym in Hlong. apply negb_true_iff in Hlong.
  set (w1 := with_trace (trace w ++ [DetectLanguage (detectionSample (document w))])
               (with_timers
                  (timers w ++ [PatchTask (statusPatch DETECTING_LANGUAGE)]) w)).
  assert (Hwin1 : contentWindow w1 = Some cw) by (rewrite <- Hwin; now destruct w).
  assert (D : detected =
    (Normal tt,
     with_timers
       (timers w1 ++ [PatchTask (detectionPatch (mkDetected lang true));
                      PatchTask (statusPatch OFFER)]) w1)).
  { subst detected. unfold attemptToDetectLanguage, bind.
    rewrite attemptToDetectLanguage_begin_run, Hweb, Hlong.
    unfold modify, undisturbed. cbv beta iota. fold w1.
    rewrite attemptToDetectLanguage_resume_run, Hwin1. reflexivity. }
  set (w2 := with_timers
               (timers w1 ++ [PatchTask (detectionPatch (mkDetected lang true));
                              PatchTask (statusPatch OFFER)]) w1) in *.
  assert (Hwin2 : contentWindow w2 = Some cw) by (rewrite <- Hwin; now destruct w).
  assert (Hheap2 : heap w2 = heap w) by now destruct w.
  assert (Hdoc2 : document w2 = document w) by now destruct w.
  assert (Ht2 : timers w2 =
    timers w ++ [PatchTask (statusPatch DETECTING_LANGUAGE);
                 PatchTask (detectionPatch (mkDetected lang true));
                 PatchTask (statusPatch OFFER)]).
  { destruct w; simpl. now rewrite <- app_assoc. }
  assert (Htr2 : trace w2 = trace w ++ [DetectLanguage (detectionSample (document w))])
    by now destruct w.
  destruct (doTranslation_undisturbed_run aFrom aTo (Resolved tt) w2 cw Hwin2)
    as (E & _ & Ht3 & Htr3).
  unfold constructionEvents in Htr3. rewrite Hheap2 in E, Htr3.
  fold (constructionEvents w (translationDocument cw)) in Htr3. fold td in E, Htr3.
  set (w3 := snd (doTranslation_begin aFrom aTo w2)) in *.
  assert (T : translated =
    (Normal tt,
     with_timers (timers w3 ++ [PatchTask (statusPatch TRANSLATED)])
       (with_trace (trace w3 ++ [ShowTranslation td]) w3))).
  { subst translated. rewrite D. cbn [snd]. rewrite E.
    apply doTranslation_resume_resolved.
    subst w3. now rewrite doTranslation_begin_document, Hdoc2. }
  rewrite D, T. cbn [fst snd].
  split; [reflexivity|]. split; [reflexivity|]. split.
  - replace (timers (with_timers (timers w3 ++ [PatchTask (statusPatch TRANSLATED)])
                       (with_trace (trace w3 ++ [ShowTranslation td]) w3)))
      with (timers w3 ++ [PatchTask (statusPatch TRANSLATED)]) by now destruct w3.
    rewrite Ht3, Ht2. unfold statusesQueued. rewrite !omap_app. cbn [omap].
    rewrite <- !app_assoc. reflexivity.
  - replace (trace (with_timers (timers w3 ++ [PatchTask (statusPatch TRANSLATED)])
                      (with_trace (trace w3 ++ [ShowTranslation td]) w3)))
      with (trace w3 ++ [ShowTranslation td]) by now destruct w3.
    rewrite Htr3, Htr2. rewrite <- !app_assoc. reflexivity.
Qed.

Lemma detection_then_translation_witness :
  statusesQueued
    (timers (snd (doTranslation "en" "de" undisturbed (Resolved tt)
                    (snd (attemptToDetectLanguage undisturbed (Resolved english)
                            longPage))))) =
    [DETECTING_LANGUAGE; OFFER; TRANSLATING; TRANSLATED].
Proof.
  exact (proj1 (proj2 (proj2
    (detection_then_translation "en" "en" "de" longPage (mkContentWindow None)
       eq_refl eq_refl eq_refl eq_refl)))).
Defined.

(** X8. [getDocumentTranslationStatistics], up to its suspension, reads and
    does not write: it returns the roots of the document in use, asks the
    observer for exactly their nodes, in order, queues no status, leaves
    the window as it was (a document it had to construct is not stored) and
    leaves every document of the heap as it was. *)
Theorem statistics_read_only (w : World) (cw : ContentWindow)
    (d0 : TranslationDocument) :
  contentWindow w = Some cw ->
  documentInUse w (translationDocument cw) = Some d0 ->
  let r := getDocumentTranslationStatistics_begin w in
  fst r = Normal (roots d0) /\
  trace (snd r) =
    trace w ++ constructionEvents w (translationDocument cw) ++
    [Observe (map nodeRef (roots d0))] /\
  timers (snd r) = timers w /\
  contentWindow (snd r) = contentWindow w /\
  (forall a d, heap w !! a = Some d -> heap (snd r) !! a = Some d).
Proof.
  intros Hwin Huse r. subst r.
  unfold getDocumentTranslationStatistics_begin, translationDocumentOrNew,
    newTranslationDocument, deref, call, modify, bind, gets, ret, throw.
  rewrite Hwin.
  destruct (translationDocument cw) as [r0|];
    cbn [documentInUse constructionEvents] in *.
  - rewrite Huse. cbn [fst snd]. repeat split; now destruct w.
  - injection Huse as <-. destruct w as [fi doc win h ts tr].
    cbn [heap trace timers contentWindow document with_heap with_trace fst snd] in *.
    rewrite lookup_app_r by lia. rewrite Nat.sub_diag.
    cbn [lookup list_lookup fst snd trace timers contentWindow heap].
    unfold with_trace, with_heap.
    cbn [heap trace timers contentWindow document frameInfo].
    repeat split; intros; rewrite <- ?app_assoc;
      try reflexivity; try assumption.
    now apply lookup_app_l_Some.
Qed.

Lemma statistics_read_only_witness :
  contentWindow (snd (getDocumentTranslationStatistics_begin longPage)) =
    Some (mkContentWindow None).
Proof.
  exact (proj1 (proj2 (proj2 (proj2
    (statistics_read_only longPage (mkContentWindow None) noRoots eq_refl eq_refl))))).
Defined.


(** ** Properties of the statistics *)

Section TextFacts.

Lemma count_append (c : ascii) (a b : string) :
  JS.count c (a ++ b) = (JS.count c a + JS.count c b)%nat.
Proof.
  induction a as [|d a IH]; simpl; [reflexivity|]. rewrite IH. lia.
Qed.

Lemma replace_tags_no_lt (in_tag : bool) (s : string) :
  JS.count "<" (JS.replace_tags in_tag s) = 0%nat.
Proof.
  revert in_tag; induction s as [|c s IH]; intros in_tag; simpl; [reflexivity|].
  destruct in_tag.
  - destruct (Ascii.eqb c ">"); apply IH.
  - destruct (Ascii.eqb c "<") eqn:E; simpl.
    + apply IH.
    + rewrite E. apply IH.
Qed.

Lemma trimStart_count (c : ascii) (s : string) :
  (JS.count c (JS.trimStart s) <= JS.count c s)%nat.
Proof.
  induction s as [|d s IH]; simpl; [lia|].
  destruct (JS.is_white_space d); simpl; lia.
Qed.

Lemma trimEnd_count (c : ascii) (s : string) :
  (JS.count c (JS.trimEnd s) <= JS.count c s)%nat.
Proof.
  induction s as [|d s IH]; simpl; [lia|].
  destruct (JS.trimEnd s) as [|e t]; simpl in *.
  - destruct (JS.is_white_space d); simpl; lia.
  - lia.
Qed.

Lemma trimStart_first (s : string) :
  isWhiteSpace (firstCodeUnit (JS.trimStart s)) = false.
Proof.
  induction s as [|d s IH]; simpl; [reflexivity|].
  destruct (JS.is_white_space d) eqn:E; [exact IH | simpl; exact E].
Qed.

Lemma trimEnd_first (s : string) :
  isWhiteSpace (firstCodeUnit s) = false ->
  isWhiteSpace (firstCodeUnit (JS.trimEnd s)) = false.
Proof.
  destruct s as [|d s]; simpl; [auto|]. intros E.
  destruct (JS.trimEnd s); [rewrite E|]; simpl; exact E.
Qed.

Lemma trimEnd_last (s : string) :
  isWhiteSpace (lastCodeUnit (JS.trimEnd s)) = false.
Proof.
  induction s as [|d s IH]; simpl; [reflexivity|].
  destruct (JS.trimEnd s) as [|e t].
  - destruct (JS.is_white_space d) eqn:E; simpl; [reflexivity | exact E].
  - change (lastCodeUnit (String d (String e t)))
      with (match lastCodeUnit (String e t) with Some x => Some x | None => Some d end).
    destruct (lastCodeUnit (String e t)) eqn:L; [exact IH|].
    simpl in L. destruct (lastCodeUnit t); discriminate.
Qed.

Lemma clean_cleaned (s : string) : cleaned (clean s).
Proof.
  unfold cleaned, clean, JS.trim. split; [|split].
  - pose proof (trimEnd_count "<" (JS.trimStart (JS.replace_tags false s))).
    pose proof (trimStart_count "<" (JS.replace_tags false s)).
    pose proof (replace_tags_no_lt false s). lia.
  - apply trimEnd_first, trimStart_first.
  - apply trimEnd_last.
Qed.

Lemma replace_tags_plain (s : string) :
  JS.count "<" s = 0%nat -> JS.replace_tags false s = s.
Proof.
  induction s as [|c s IH]; simpl; [reflexivity|].
  destruct (Ascii.eqb c "<"); simpl; [discriminate|].
  intros H. now rewrite IH.
Qed.

Lemma trimStart_plain (s : string) :
  isWhiteSpace (firstCodeUnit s) = false -> JS.trimStart s = s.
Proof.
  destruct s as [|c s]; simpl; [reflexivity|]. now intros ->.
Qed.

Lemma trimEnd_plain (s : string) :
  isWhiteSpace (lastCodeUnit s) = false -> JS.trimEnd s = s.
Proof.
  induction s as [|c s IH]; [reflexivity|].
  cbn [lastCodeUnit JS.trimEnd].
  destruct (lastCodeUnit s) as [d|] eqn:L.
  - intros H. rewrite (IH H). destruct s; [discriminate L | reflexivity].
  - destruct s as [|e s]; [|simpl in L; destruct (lastCodeUnit s); discriminate].
    simpl. now intros ->.
Qed.

End TextFacts.

(** X9. The texts of the statistics are well formed: every text of
    [texts], [textsInViewport] and [textsVisibleInViewport] is free of "<"
    and has no white space at its start or end, and cleaning such a text
    again leaves it unchanged (the cleaning is idempotent). *)
Theorem statistics_texts_are_cleaned (layout : Layout)
    (rootsList : list TranslationItem) (entries : list IntersectionObserverEntry) :
  let s := getDocumentTranslationStatistics_resume layout rootsList entries in
  Forall cleaned (stat_texts s) /\
  Forall cleaned (stat_textsInViewport s) /\
  Forall cleaned (stat_textsVisibleInViewport s) /\
  (forall text, clean (clean text) = clean text).
Proof.
  intros s. subst s. unfold getDocumentTranslationStatistics_resume.
  cbn [stat_texts stat_textsInViewport stat_textsVisibleInViewport].
  rewrite collectTexts_spec.
  cbn [texts textsInViewport textsVisibleInViewport app].
  assert (C : forall l, Forall cleaned (map cleanText l)).
  { intros l. apply List.Forall_forall. intros t Ht.
    apply in_map_iff in Ht. destruct Ht as (root & <- & _).
    apply clean_cleaned. }
  split; [apply C|]. split; [apply C|]. split; [apply C|].
  intros text. destruct (clean_cleaned text) as (Hlt & Hfirst & Hlast).
  unfold clean at 1. rewrite (replace_tags_plain _ Hlt).
  unfold JS.trim. rewrite (trimStart_plain _ Hfirst). apply trimEnd_plain, Hlast.
Qed.

Section CountFacts.

Lemma map_filter_sublist {A B : Type} (f : A -> B) (p : A -> bool) (l : list A) :
  map f (List.filter p l) `sublist_of` map f l.
Proof.
  induction l as [|x l IH]; simpl; [constructor|].
  destruct (p x); simpl; now constructor.
Qed.

Lemma filter_length_le {A : Type} (p : A -> bool) (l : list A) :
  (List.length (List.filter p l) <= List.length l)%nat.
Proof.
  induction l as [|x l IH]; simpl; [lia|]. destruct (p x); simpl; lia.
Qed.

Lemma joined_fields (x : string) (array : list string) :
  S (JS.count " " (JS.join " " (x :: array))) = totalFields (x :: array).
Proof.
  revert x; induction array as [|y array IH]; intros x.
  - unfold totalFields, fieldsOf. simpl. lia.
  - change (JS.join " " (x :: y :: array))
      with (x ++ " " ++ JS.join " " (y :: array))%string.
    rewrite !count_append.
    change (totalFields (x :: y :: array))
      with (fieldsOf x + totalFields (y :: array))%nat.
    rewrite <- IH. unfold fieldsOf. simpl. lia.
Qed.

Lemma countWords_total (array : list string) :
  countWords array = Nat.max 1 (totalFields array).
Proof.
  rewrite countWords_spaces. destruct array as [|x array]; [reflexivity|].
  rewrite joined_fields.
  change (totalFields (x :: array)) with (fieldsOf x + totalFields array)%nat.
  unfold fieldsOf. lia.
Qed.

Lemma totalFields_sublist (l1 l2 : list string) :
  l1 `sublist_of` l2 -> (totalFields l1 <= totalFields l2)%nat.
Proof.
  induction 1 as [|x l1 l2 _ IH|x l1 l2 _ IH]; unfold totalFields in *; simpl; lia.
Qed.

Lemma totalFields_length (array : list string) :
  (List.length array <= totalFields array)%nat.
Proof.
  induction array as [|x array IH]; unfold totalFields, fieldsOf in *; simpl; lia.
Qed.

Lemma found_reported (entries : list IntersectionObserverEntry) (node : Node) :
  found node (elementsInViewport entries) = true <->
  reportedIntersecting entries node.
Proof.
  unfold found, elementsInViewport, reportedIntersecting.
  rewrite existsb_exists. split.
  - intros (el & Hin & Heq). apply Nat.eqb_eq in Heq. subst el.
    apply in_map_iff in Hin. destruct Hin as (entry & Ht & Hf).
    apply filter_In in Hf. destruct Hf as [Hin Hint].
    exists entry. auto.
  - intros (entry & Hin & Ht & Hint). exists node. split.
    + apply in_map_iff. exists entry. split; [exact Ht|].
      apply filter_In. auto.
    + apply Nat.eqb_refl.
Qed.

End CountFacts.

(** X10. The loop of [getDocumentTranslationStatistics] is a filter: the
    roots without text are skipped, [textsInViewport] holds the cleaned
    texts of the roots whose node lies in the viewport and
    [textsVisibleInViewport] those of the roots the observer reported, both
    in the order of the roots; so both are sublists of [texts], and [texts]
    has at most one text per root. *)
Theorem statistics_texts_are_filtered (layout : Layout)
    (rootsList : list TranslationItem) (entries : list IntersectionObserverEntry) :
  let s := getDocumentTranslationStatistics_resume layout rootsList entries in
  stat_textsInViewport s =
    map cleanText
      (List.filter (fun root => isElementInViewport layout (nodeRef root))
         (rootsWithText rootsList)) /\
  stat_textsVisibleInViewport s =
    map cleanText
      (List.filter (fun root => found (nodeRef root) (elementsInViewport entries))
         (rootsWithText rootsList)) /\
  stat_textsInViewport s `sublist_of` stat_texts s /\
  stat_textsVisibleInViewport s `sublist_of` stat_texts s /\
  (List.length (stat_texts s) <= List.length rootsList)%nat.
Proof.
  intros s. subst s. unfold getDocumentTranslationStatistics_resume.
  cbn [stat_texts stat_textsInViewport stat_textsVisibleInViewport].
  rewrite collectTexts_spec.
  cbn [texts textsInViewport textsVisibleInViewport app].
  split; [reflexivity|]. split; [reflexivity|].
  split; [apply map_filter_sublist|]. split; [apply map_filter_sublist|].
  rewrite length_map. apply filter_length_le.
Qed.

(** X11. The word counts add up text by text: a text with [k] spaces counts
    for [k + 1] words (an empty text for one), and a count is the sum over
    its texts, or 1 when it has no text.  Hence the counts of the viewport
    never exceed the count of the document, and no count is below the
    number of its texts. *)
Theorem word_counts_add_up (layout : Layout)
    (rootsList : list TranslationItem) (entries : list IntersectionObserverEntry) :
  let s := getDocumentTranslationStatistics_resume layout rootsList entries in
  wordCount s = Nat.max 1 (totalFields (stat_texts s)) /\
  wordCountInViewport s = Nat.max 1 (totalFields (stat_textsInViewport s)) /\
  wordCountVisibleInViewport s =
    Nat.max 1 (totalFields (stat_textsVisibleInViewport s)) /\
  (wordCountInViewport s <= wordCount s)%nat /\
  (wordCountVisibleInViewport s <= wordCount s)%nat /\
  (List.length (stat_texts s) <= wordCount s)%nat.
Proof.
  intros s. subst s. unfold getDocumentTranslationStatistics_resume.
  cbn [wordCount wordCountInViewport wordCountVisibleInViewport
       stat_texts stat_textsInViewport stat_textsVisibleInViewport].
  rewrite !countWords_total, collectTexts_spec.
  cbn [texts textsInViewport textsVisibleInViewport app].
  pose proof (totalFields_sublist _ _
    (map_filter_sublist cleanText
       (fun root => isElementInViewport layout (nodeRef root))
       (rootsWithText rootsList))) as H1.
  pose proof (totalFields_sublist _ _
    (map_filter_sublist cleanText
       (fun root => found (nodeRef root) (elementsInViewport entries))
       (rootsWithText rootsList))) as H2.
  pose proof (totalFields_length (map cleanText (rootsWithText rootsList))) as H3.
  repeat split; lia.
Qed.

(** X12. A root counts as visible in the viewport exactly when the
    observer's report holds an entry for its node that is intersecting:
    entries that do not intersect, and entries for other nodes, never make
    a root visible. *)
Theorem visible_iff_reported (entries : list IntersectionObserverEntry)
    (node : Node) :
  found node (elementsInViewport entries) = true <->
  exists entry,
    In entry entries /\ target entry = node /\ isIntersecting entry = true.
Proof. exact (found_reported entries node). Qed.

(** ** Properties of the manifest generator *)

(** X13. The browser-specific keys of the manifest: [applications.gecko]
    and [browser_style: false] are set exactly when the target browser is
    "firefox", [content_security_policy] and [chrome_style: false] exactly
    when it is "chrome", never both; every other key is the same for all
    targets, and for any other target the manifest is the plain object
    literal. *)
Theorem Manifest_browser_keys (packageVersion : option string) (target : string)
    (env : Manifest.Env) :
  let m := Manifest.generateManifest packageVersion target env in
  let base := Manifest.baseManifest packageVersion env in
  (is_Some (Manifest.applications_gecko m) <-> target = "firefox") /\
  (Manifest.action_browser_style (Manifest.browser_action m) = Some false <->
   target = "firefox") /\
  (Manifest.options_browser_style (Manifest.options_ui m) = Some false <->
   target = "firefox") /\
  (is_Some (Manifest.content_security_policy m) <-> target = "chrome") /\
  (Manifest.action_chrome_style (Manifest.browser_action m) = Some false <->
   target = "chrome") /\
  (Manifest.options_chrome_style (Manifest.options_ui m) = Some false <->
   target = "chrome") /\
  ~ (is_Some (Manifest.applications_gecko m) /\
     is_Some (Manifest.content_security_policy m)) /\
  Manifest.name m = Manifest.name base /\
  Manifest.version m = Manifest.version base /\
  Manifest.permissions m = Manifest.permissions base /\
  Manifest.content_scripts m = Manifest.content_scripts base /\
  (if String.eqb target "firefox" || String.eqb target "chrome"
   then m <> base else m = base).
Proof.
  intros m base. subst m base.
  unfold Manifest.generateManifest, Manifest.forChrome, Manifest.forFirefox.
  destruct (String.eqb_spec target "firefox") as [->|Hf].
  - cbn. repeat split; intros; try reflexivity; try discriminate;
      try (eexists; reflexivity); try (match goal with H : is_Some None |- _ =>
        destruct H; discriminate end).
    intros [_ [x Hx]]. discriminate.
  - destruct (String.eqb_spec target "chrome") as [->|Hc].
    + cbn. repeat split; intros; try reflexivity; try discriminate;
        try (eexists; reflexivity); try (match goal with H : is_Some None |- _ =>
          destruct H; discriminate end).
      intros [[x Hx] _]. discriminate.
    + cbn. repeat split; intros; try reflexivity; try discriminate;
        try contradiction;
        try (match goal with H : is_Some None |- _ => destruct H; discriminate end).
      intros [[x Hx] _]. discriminate.
Qed.

(** X14. The manifest's name is "Bergamot Translate" exactly when
    [NODE_ENV] is "production"; in every other environment, an unset
    [NODE_ENV] included, it is "Bergamot Translate (DEV)".  The same test
    chooses the dotenv file when the script is run: [.env.production]
    exactly for "production", [.env.development] otherwise. *)
Theorem Manifest_name_follows_node_env (packageVersion : option string)
    (target : string) (env : Manifest.Env) :
  let m := Manifest.generateManifest packageVersion target env in
  (Manifest.name m = "Bergamot Translate" <->
   Manifest.NODE_ENV env = Some "production") /\
  (Manifest.name m = "Bergamot Translate (DEV)" <->
   Manifest.NODE_ENV env <> Some "production") /\
  (Manifest.dotEnvPath env = "./.env.production" <->
   Manifest.NODE_ENV env = Some "production") /\
  (Manifest.dotEnvPath env = "./.env.development" <->
   Manifest.NODE_ENV env <> Some "production").
Proof.
  intros m.
  assert (Hname : Manifest.name m =
    ("Bergamot Translate" ++
     (if negb (Manifest.isProduction env) then " (DEV)" else ""))%string).
  { subst m. unfold Manifest.generateManifest, Manifest.forChrome, Manifest.forFirefox.
    destruct (String.eqb target "firefox"); destruct (String.eqb target "chrome");
      reflexivity. }
  assert (Hprod : Manifest.isProduction env = true <->
                  Manifest.NODE_ENV env = Some "production").
  { unfold Manifest.isProduction. destruct (Manifest.NODE_ENV env) as [v|].
    - rewrite String.eqb_eq. split; congruence.
    - split; discriminate. }
  rewrite Hname. unfold Manifest.dotEnvPath.
  destruct (Manifest.isProduction env); cbn [negb].
  - assert (P : Manifest.NODE_ENV env = Some "production") by now apply Hprod.
    repeat split; intros; try reflexivity; try assumption; try discriminate;
      try contradiction.
  - assert (P : Manifest.NODE_ENV env <> Some "production").
    { intros E. apply Hprod in E. discriminate. }
    repeat split; intros; try reflexivity; try assumption; try discriminate;
      try contradiction.
Qed.

(** X15. The target browser is never empty: an unset or empty
    [TARGET_BROWSER] means "firefox", any other value is taken as it is.
    So without [TARGET_BROWSER] the manifest generated is the Firefox one,
    with [applications.gecko] and without a content security policy. *)
Theorem Manifest_target_defaults_to_firefox (packageVersion : option string)
    (env loaded : Manifest.Env) :
  Manifest.targetBrowser env <> "" /\
  match Manifest.TARGET_BROWSER env with
  | None | Some EmptyString =>
      Manifest.targetBrowser env = "firefox" /\
      Manifest.applications_gecko
        (Manifest.generateManifest packageVersion (Manifest.targetBrowser env) loaded) =
        Some (Manifest.mkGecko "bergamot-browser-extension@browser.mt" "77.0a1") /\
      Manifest.content_security_policy
        (Manifest.generateManifest packageVersion (Manifest.targetBrowser env) loaded) =
        None
  | Some value => Manifest.targetBrowser env = value
  end.
Proof.
  unfold Manifest.targetBrowser, Manifest.string_or.
  destruct (Manifest.TARGET_BROWSER env) as [[|c rest]|];
    (split; [discriminate|]); try reflexivity; repeat split.
Qed.

(** ** Properties of [translateUi.start] *)

(** X16. Whatever a browser call returns or throws, [start] ends in one of
    three ways.  It resolves, and then every call it made returned.  It
    rejects with an [ExtensionError], and then the last call it made threw
    a value other than [null] and [undefined], the calls before it
    returned, no later call was made, and the [ExtensionError] carries the
    [message] property of the value thrown.  Or it rejects with a
    [TypeError], and then the last call it made threw [null] or
    [undefined], on which the [catch] block itself fails. *)
Theorem start_surfaces_extension_errors (browser : TranslateUi.Browser) :
  let calls := fst (TranslateUi.start browser) in
  match snd (TranslateUi.start browser) with
  | TranslateUi.Returned _ =>
      Forall (fun c => TranslateUi.raises browser c = None) calls
  | TranslateUi.Raised (TranslateUi.ExtensionError message) =>
      exists before failing,
        calls = before ++ [failing] /\
        TranslateUi.raises browser failing = Some (TranslateUi.Object message) /\
        Forall (fun c => TranslateUi.raises browser c = None) before
  | TranslateUi.Raised TranslateUi.TypeError =>
      exists before failing,
        calls = before ++ [failing] /\
        TranslateUi.raises browser failing = Some TranslateUi.Nullish /\
        Forall (fun c => TranslateUi.raises browser c = None) before
  end.
Proof.
  intros calls. subst calls.
  unfold TranslateUi.start, TranslateUi.invoke, TranslateUi.hasGBrowser.
  destruct (TranslateUi.raises browser TranslateUi.GetTopWindow) as [[|m1]|] eqn:E1;
    cbn.
  1, 2: exists [], TranslateUi.GetTopWindow; repeat split; auto.
  destruct (TranslateUi.recentWindow browser) as [[|]|]; cbn;
    try (repeat constructor; assumption).
  destruct (TranslateUi.raises browser TranslateUi.NewTranslationBrowserChromeUi)
    as [[|m2]|] eqn:E2; cbn.
  1, 2: exists [TranslateUi.GetTopWindow], TranslateUi.NewTranslationBrowserChromeUi;
    repeat split; auto.
  destruct (TranslateUi.raises browser TranslateUi.ShowURLBarIcon) as [[|m3]|] eqn:E3;
    cbn.
  1, 2: exists [TranslateUi.GetTopWindow; TranslateUi.NewTranslationBrowserChromeUi],
      TranslateUi.ShowURLBarIcon; repeat split; auto.
  destruct (TranslateUi.raises browser TranslateUi.ShowTranslationInfoBar)
    as [[|m4]|] eqn:E4; cbn.
  1, 2: exists [TranslateUi.GetTopWindow; TranslateUi.NewTranslationBrowserChromeUi;
            TranslateUi.ShowURLBarIcon], TranslateUi.ShowTranslationInfoBar;
    repeat split; auto.
  repeat constructor; assumption.
Qed.

(** X17. [start] builds and shows the user interface only in a window that
    has a [gBrowser]: without a recent window, or with one that has no
    [gBrowser], its only call is [getTopWindow].  In every case the calls
    it makes are a prefix of: get the window, construct the interface, show
    the URL bar icon, show the info bar; so the info bar is shown only
    after the icon has been shown without error. *)
Theorem start_shows_ui_in_order (browser : TranslateUi.Browser) :
  let calls := fst (TranslateUi.start browser) in
  calls `prefix_of`
    [TranslateUi.GetTopWindow; TranslateUi.NewTranslationBrowserChromeUi;
     TranslateUi.ShowURLBarIcon; TranslateUi.ShowTranslationInfoBar] /\
  (if TranslateUi.hasGBrowser browser then
     (1 <= List.length calls)%nat
   else calls = [TranslateUi.GetTopWindow]) /\
  match last calls with
  | Some TranslateUi.ShowTranslationInfoBar =>
      TranslateUi.raises browser TranslateUi.NewTranslationBrowserChromeUi = None /\
      TranslateUi.raises browser TranslateUi.ShowURLBarIcon = None /\
      TranslateUi.hasGBrowser browser = true
  | _ => True
  end.
Proof.
  intros calls. subst calls.
  unfold TranslateUi.start, TranslateUi.invoke, TranslateUi.hasGBrowser.
  destruct (TranslateUi.raises browser TranslateUi.GetTopWindow) as [[|m1]|] eqn:E1;
    destruct (TranslateUi.recentWindow browser) as [[|]|];
    destruct (TranslateUi.raises browser TranslateUi.NewTranslationBrowserChromeUi)
      as [[|m2]|] eqn:E2;
    destruct (TranslateUi.raises browser TranslateUi.ShowURLBarIcon) as [[|m3]|] eqn:E3;
    destruct (TranslateUi.raises browser TranslateUi.ShowTranslationInfoBar)
      as [[|m4]|] eqn:E4;
    cbn;
    (split; [eexists; reflexivity|]);
    (split; [first [reflexivity | lia]|]);
    first [exact I | repeat split].
Qed.

Example start_with_broken_icon :
  TranslateUi.start TranslateUi.brokenIcon =
    ([TranslateUi.GetTopWindow; TranslateUi.NewTranslationBrowserChromeUi;
      TranslateUi.ShowURLBarIcon],
     TranslateUi.Raised (TranslateUi.ExtensionError (Some "no URL bar"))).
Proof. reflexivity. Qed.
